(** * The request dispatcher of azure/http/httpclient.py

    A shallow embedding of the class [_HTTPClient]: proxy configuration
    ([set_proxy]), connection acquisition ([get_connection]), header and
    body emission ([send_request_headers], [send_request_body]) and the
    dispatch itself ([perform_request]).

    The connection primitive (httplib's HTTPConnection / HTTPSConnection,
    or the alternate WinHTTP connection) is an opaque collaborator.  It is
    modelled as an object that records every method call made on it, with
    a transport that decides which calls raise, what the connection buffers
    for the request line, and what response comes back. *)

From Stdlib Require Import ZArith Ascii String List Bool Lia.
From stdpp Require Import base option list gmap strings pretty.

Local Open Scope string_scope.
Local Open Scope list_scope.

(** ** Python strings (byte strings of Python 2) *)

Module PyStr.

(** [str.lower] on a byte string: only the letters A-Z change. *)
Definition is_upper (c : ascii) : bool :=
  (65 <=? nat_of_ascii c)%nat && (nat_of_ascii c <=? 90)%nat.

Definition lower_ascii (c : ascii) : ascii :=
  if is_upper c then ascii_of_nat (nat_of_ascii c + 32) else c.

Fixpoint lower (s : string) : string :=
  match s with
  | EmptyString => EmptyString
  | String c s' => String (lower_ascii c) (lower s')
  end.

(** A string none of whose characters is an upper-case letter. *)
Fixpoint no_upper (s : string) : bool :=
  match s with
  | EmptyString => true
  | String c s' => negb (is_upper c) && no_upper s'
  end.

(** [s.startswith(p)] *)
Definition startswith (s p : string) : bool := String.prefix p s.

(** [str(x)] of a value that may be [None]. *)
Definition str_of (o : option string) : string := default "None" o.

Definition str_of_int (o : option Z) : string :=
  match o with Some z => pretty z | None => "None" end.

Definition to_list (s : string) : list ascii := list_ascii_of_string s.

End PyStr.

(** Python truth-value testing: [None], the empty string and the empty byte
    string are false. *)
Class Truthy (A : Type) := truthy : A -> bool.

#[global] Instance truthy_string : Truthy string :=
  fun s => match s with EmptyString => false | String _ _ => true end.
#[global] Instance truthy_list {A} : Truthy (list A) :=
  fun l => match l with [] => false | _ :: _ => true end.
#[global] Instance truthy_option {A} `{Truthy A} : Truthy (option A) :=
  fun o => match o with None => false | Some a => truthy a end.

(** ** base64.encodestring *)

Module Base64.

Definition alphabet : string :=
  "ABCDEFGHIJKLMNOPQRSTUVWXYZabcdefghijklmnopqrstuvwxyz0123456789+/".

Definition digit (n : N) : ascii :=
  default "="%char (String.get (N.to_nat n) alphabet).

Definition pad : ascii := "="%char.
Definition newline : ascii := "010"%char.

(** Three input bytes give four digits; a tail of one or two bytes is
    padded with [=]. *)
Fixpoint encode_bytes (l : list N) : string :=
  match l with
  | [] => EmptyString
  | [a] =>
      String (digit (a / 4))
        (String (digit ((a mod 4) * 16)) (String pad (String pad EmptyString)))
  | [a; b] =>
      String (digit (a / 4))
        (String (digit ((a mod 4) * 16 + b / 16))
           (String (digit ((b mod 16) * 4)) (String pad EmptyString)))
  | a :: b :: c :: rest =>
      String (digit (a / 4))
        (String (digit ((a mod 4) * 16 + b / 16))
           (String (digit ((b mod 16) * 4 + c / 64))
              (String (digit (c mod 64)) (encode_bytes rest))))
  end%N.

(** [binascii.b2a_base64]: one line of base64, newline-terminated. *)
Definition b2a_base64 (chunk : list ascii) : string :=
  encode_bytes (map N_of_ascii chunk) +:+ String newline EmptyString.

Definition MAXLINESIZE : nat := 76.
Definition MAXBINSIZE : nat := (MAXLINESIZE / 4) * 3.

(** [for i in range(0, len(s), MAXBINSIZE): pieces.append(b2a_base64(s[i:i+MAXBINSIZE]))] *)
Fixpoint pieces (fuel : nat) (s : list ascii) : list string :=
  match fuel, s with
  | _, [] => []
  | O, _ => []
  | S fuel', _ => b2a_base64 (take MAXBINSIZE s) :: pieces fuel' (drop MAXBINSIZE s)
  end.

Definition encodestring (s : string) : string :=
  let l := PyStr.to_list s in
  String.concat "" (pieces (length l) l).

End Base64.

(** ** Data model *)

Definition bytes := list Byte.byte.

(** List objects live in a store: a header list is handed around by
    reference and updated in place. *)
Definition loc := nat.
Abbreviation store := (gmap loc (list (string * string))).

(** The client instance, with the attributes [__init__] gives it. *)
Record _HTTPClient := {
  service_instance : nat;
  status : option Z;
  respheader : option loc;
  message : option string;
  cert_file : option string;
  account_name : option string;
  account_key : option string;
  service_namespace : option string;
  issuer : option string;
  protocol : string;
  proxy_host : option string;
  proxy_port : option Z;
  proxy_user : option string;
  proxy_password : option string;
  use_httplib : bool
}.

(** Modelled from the spec: the request descriptor (class HTTPRequest of
    azure.http): method, path, protocol override, host, headers (ordered
    name/value pairs, values optional), body (raw bytes or absent). *)
Record HTTPRequest := {
  host : string;
  method : string;
  path : string;
  headers : list (string * option string);
  body : option bytes;
  protocol_override : option string
}.

(** Modelled from the spec: the response value (class HTTPResponse of
    azure.http): status code, reason phrase, headers, body.  The headers
    are the list object it was constructed with. *)
Record HTTPResponse := {
  r_status : Z;
  r_message : string;
  r_headers : loc;
  r_body : option bytes
}.

(** Exceptions.  [HTTPError] is modelled from the spec (the error value of
    azure.http, carrying status, reason, headers and body); it is built
    from attributes of the client, which hold [None] before the first
    dispatch.  [TransportError] is whatever the connection primitive
    raises.  [FuelExhausted] marks a loop of the model that was cut short;
    no run produces it. *)
Inductive exn :=
| HTTPError (status : option Z) (message : option string)
            (respheader : option loc) (respbody : option bytes)
| TypeError (msg : string)
| ValueError (msg : string)
| TransportError (msg : string)
| FuelExhausted.

Inductive result (A : Type) :=
| Return (a : A)
| Raise (e : exn).
Arguments Return {A} a.
Arguments Raise {A} e.

(** Modelled from the spec: the three connection implementations.  The
    first two are the standard ones of httplib; the third is the alternate
    one (azure.http.winhttp._HTTPConnection) used on Windows, a class of
    its own. *)
Inductive conn_class := HTTPConnection | HTTPSConnection | WinHTTPConnection.

(** Method calls made on a connection (and on the response it hands out). *)
Inductive event :=
| set_tunnel_ev (host : option string) (port : Z) (headers : option (gmap string string))
| putrequest_ev (method path : string)
| set_proxy_credentials_ev (user password : option string)
| putheader_ev (name value : string)
| endheaders_ev
| send_ev (data : option bytes)
| getresponse_ev
| read_ev (amt : option Z)
| close_ev.

(** The connection object.  [_buffer], [_tunnel_host] and [_tunnel_port]
    are the attributes the client reaches into; [sent] holds the header
    lines flushed by [endheaders]; [calls] is the record of method calls. *)
Record connection := {
  conn_class_of : conn_class;
  conn_host : option string;
  conn_port : option Z;
  conn_cert_file : option string;
  conn_protocol : option string;
  _tunnel_host : option string;
  _tunnel_port : option Z;
  _tunnel_headers : gmap string string;
  _buffer : list string;
  sent : list string;
  calls : list event
}.

(** What comes back from the wire. *)
Record raw_response := {
  resp_status : Z;
  resp_reason : string;
  resp_headers : list (string * string);
  resp_length : option Z;
  resp_data : bytes
}.

(** The transport behind the connection primitive: [fault] decides, from
    the calls made so far (the current one last), whether the current call
    raises; [request_lines] is what the connection buffers for a request
    line; [response] is what the server answers. *)
Record transport := {
  fault : list event -> option string;
  request_lines : connection -> string -> string -> list string;
  response : raw_response
}.

Definition HTTP_PORT : Z := 80.
Definition HTTPS_PORT : Z := 443.

(** ** Field updates *)

Definition with_status (v : option Z) (self : _HTTPClient) : _HTTPClient :=
  {| service_instance := service_instance self; status := v;
     respheader := respheader self; message := message self;
     cert_file := cert_file self; account_name := account_name self;
     account_key := account_key self;
     service_namespace := service_namespace self; issuer := issuer self;
     protocol := protocol self; proxy_host := proxy_host self;
     proxy_port := proxy_port self; proxy_user := proxy_user self;
     proxy_password := proxy_password self; use_httplib := use_httplib self |}.

Definition with_message (v : option string) (self : _HTTPClient) : _HTTPClient :=
  {| service_instance := service_instance self; status := status self;
     respheader := respheader self; message := v;
     cert_file := cert_file self; account_name := account_name self;
     account_key := account_key self;
     service_namespace := service_namespace self; issuer := issuer self;
     protocol := protocol self; proxy_host := proxy_host self;
     proxy_port := proxy_port self; proxy_user := proxy_user self;
     proxy_password := proxy_password self; use_httplib := use_httplib self |}.

Definition with_respheader (v : option loc) (self : _HTTPClient) : _HTTPClient :=
  {| service_instance := service_instance self; status := status self;
     respheader := v; message := message self; cert_file := cert_file self;
     account_name := account_name self; account_key := account_key self;
     service_namespace := service_namespace self; issuer := issuer self;
     protocol := protocol self; proxy_host := proxy_host self;
     proxy_port := proxy_port self; proxy_user := proxy_user self;
     proxy_password := proxy_password self; use_httplib := use_httplib self |}.

Definition with_proxy_host (v : option string) (self : _HTTPClient) : _HTTPClient :=
  {| service_instance := service_instance self; status := status self;
     respheader := respheader self; message := message self;
     cert_file := cert_file self; account_name := account_name self;
     account_key := account_key self;
     service_namespace := service_namespace self; issuer := issuer self;
     protocol := protocol self; proxy_host := v;
     proxy_port := proxy_port self; proxy_user := proxy_user self;
     proxy_password := proxy_password self; use_httplib := use_httplib self |}.

Definition with_proxy_port (v : option Z) (self : _HTTPClient) : _HTTPClient :=
  {| service_instance := service_instance self; status := status self;
     respheader := respheader self; message := message self;
     cert_file := cert_file self; account_name := account_name self;
     account_key := account_key self;
     service_namespace := service_namespace self; issuer := issuer self;
     protocol := protocol self; proxy_host := proxy_host self;
     proxy_port := v; proxy_user := proxy_user self;
     proxy_password := proxy_password self; use_httplib := use_httplib self |}.

Definition with_proxy_user (v : option string) (self : _HTTPClient) : _HTTPClient :=
  {| service_instance := service_instance self; status := status self;
     respheader := respheader self; message := message self;
     cert_file := cert_file self; account_name := account_name self;
     account_key := account_key self;
     service_namespace := service_namespace self; issuer := issuer self;
     protocol := protocol self; proxy_host := proxy_host self;
     proxy_port := proxy_port self; proxy_user := v;
     proxy_password := proxy_password self; use_httplib := use_httplib self |}.

Definition with_proxy_password (v : option string) (self : _HTTPClient) : _HTTPClient :=
  {| service_instance := service_instance self; status := status self;
     respheader := respheader self; message := message self;
     cert_file := cert_file self; account_name := account_name self;
     account_key := account_key self;
     service_namespace := service_namespace self; issuer := issuer self;
     protocol := protocol self; proxy_host := proxy_host self;
     proxy_port := proxy_port self; proxy_user := proxy_user self;
     proxy_password := v; use_httplib := use_httplib self |}.

Definition with_calls (tr : list event) (c : connection) : connection :=
  {| conn_class_of := conn_class_of c; conn_host := conn_host c;
     conn_port := conn_port c; conn_cert_file := conn_cert_file c;
     conn_protocol := conn_protocol c;
     _tunnel_host := _tunnel_host c; _tunnel_port := _tunnel_port c;
     _tunnel_headers := _tunnel_headers c;
     _buffer := _buffer c; sent := sent c; calls := tr |}.

Definition with_buffer (buf : list string) (c : connection) : connection :=
  {| conn_class_of := conn_class_of c; conn_host := conn_host c;
     conn_port := conn_port c; conn_cert_file := conn_cert_file c;
     conn_protocol := conn_protocol c;
     _tunnel_host := _tunnel_host c; _tunnel_port := _tunnel_port c;
     _tunnel_headers := _tunnel_headers c;
     _buffer := buf; sent := sent c; calls := calls c |}.

Definition with_sent (lines : list string) (c : connection) : connection :=
  {| conn_class_of := conn_class_of c; conn_host := conn_host c;
     conn_port := conn_port c; conn_cert_file := conn_cert_file c;
     conn_protocol := conn_protocol c;
     _tunnel_host := _tunnel_host c; _tunnel_port := _tunnel_port c;
     _tunnel_headers := _tunnel_headers c;
     _buffer := _buffer c; sent := lines; calls := calls c |}.

Definition with_tunnel (h : option string) (p : Z) (hdrs : gmap string string)
    (c : connection) : connection :=
  {| conn_class_of := conn_class_of c; conn_host := conn_host c;
     conn_port := conn_port c; conn_cert_file := conn_cert_file c;
     conn_protocol := conn_protocol c;
     _tunnel_host := h; _tunnel_port := Some p;
     _tunnel_headers := hdrs;
     _buffer := _buffer c; sent := sent c; calls := calls c |}.

(** A connection fresh from its constructor. *)
Definition new_connection (k : conn_class) (h : option string) (p : option Z)
    (cert proto : option string) : connection :=
  {| conn_class_of := k; conn_host := h; conn_port := p;
     conn_cert_file := cert; conn_protocol := proto;
     _tunnel_host := None; _tunnel_port := None; _tunnel_headers := ∅;
     _buffer := []; sent := []; calls := [] |}.

(** ** State and exceptions

    A dispatch threads the client instance, the connection object and the
    store of list objects through its calls, and may raise. *)

Record state := {
  self : _HTTPClient;
  conn : connection;
  heap : store
}.

Definition M (A : Type) : Type := state -> result A * state.

#[global] Instance M_ret : MRet M := fun A a s => (Return a, s).

#[global] Instance M_bind : MBind M := fun A B f m s =>
  match m s with
  | (Return a, s') => f a s'
  | (Raise e, s') => (Raise e, s')
  end.

Definition raise {A} (e : exn) : M A := fun s => (Raise e, s).

Definition get_self : M _HTTPClient := fun s => (Return (self s), s).
Definition get_conn : M connection := fun s => (Return (conn s), s).

Definition modify_self (f : _HTTPClient -> _HTTPClient) : M unit := fun s =>
  (Return tt, {| self := f (self s); conn := conn s; heap := heap s |}).

Definition modify_conn (f : connection -> connection) : M unit := fun s =>
  (Return tt, {| self := self s; conn := f (conn s); heap := heap s |}).

Definition modify_heap (f : store -> store) : M unit := fun s =>
  (Return tt, {| self := self s; conn := conn s; heap := f (heap s) |}).

(** [try: m finally: fin].  The cleanup runs on every exit of [m]; an
    exception raised by the cleanup replaces the outcome of [m]. *)
Definition try_finally {A} (m : M A) (fin : M unit) : M A := fun s =>
  let (r, s1) := m s in
  match fin s1 with
  | (Return _, s2) => (r, s2)
  | (Raise e, s2) => (Raise e, s2)
  end.

(** [for x in lst: body], over a list that the body may change: the
    iterator holds an index into the live list and stops when the index
    runs off its end. *)
Fixpoint for_in {A} (fuel idx : nat) (live : state -> list A)
    (body : nat -> A -> M unit) : M unit := fun s =>
  match live s !! idx with
  | None => (Return tt, s)
  | Some x =>
      match fuel with
      | O => (Raise FuelExhausted, s)
      | S fuel' => (body idx x;; for_in fuel' (S idx) live body) s
      end
  end.

Definition py_for {A} (live : state -> list A) (body : nat -> A -> M unit) : M unit :=
  fun s => for_in (length (live s)) 0 live body s.

(** [lst.remove(x)]: drops the first element equal to [x]; [None] when
    there is none (Python raises ValueError). *)
Fixpoint list_remove (x : string) (l : list string) : option (list string) :=
  match l with
  | [] => None
  | y :: l' => if String.eqb x y then Some l' else cons y <$> list_remove x l'
  end.

(** [int(v)] of a port value. *)
Definition py_int (v : option Z) : result Z :=
  match v with
  | Some z => Return z
  | None => Raise (TypeError "int() argument must be a string or a number, not 'NoneType'")
  end.

(** [v >= 300] of a status attribute ([None] orders below every number). *)
Definition ge_300 (v : option Z) : bool :=
  match v with
  | Some z => (300 <=? z)%Z
  | None => false
  end.

Definition is_standard (k : conn_class) : bool :=
  match k with
  | HTTPConnection | HTTPSConnection => true
  | WinHTTPConnection => false
  end.

Definition is_close (ev : event) : bool :=
  match ev with close_ev => true | _ => false end.

(** How often the release operation was invoked on a connection. *)
Definition closes (c : connection) : nat := length (filter is_close (calls c)).

(** The outcome of acquiring a connection: the connection, or the exception
    together with the connection object if one had been constructed. *)
Inductive acquire :=
| Connected (c : connection)
| NotConnected (e : exn) (c : option connection).

(** What a dispatch leaves behind. *)
Record outcome := {
  out_result : result HTTPResponse;
  out_self : _HTTPClient;
  out_conn : option connection;
  out_heap : store
}.

(** ** The client *)

(** [__init__] ([platform] is [sys.platform]). *)
Definition init (service_instance : nat)
    (cert_file account_name account_key service_namespace issuer : option string)
    (protocol platform : string) : _HTTPClient :=
  {| service_instance := service_instance; status := None; respheader := None;
     message := None; cert_file := cert_file; account_name := account_name;
     account_key := account_key; service_namespace := service_namespace;
     issuer := issuer; protocol := protocol;
     proxy_host := None; proxy_port := None;
     proxy_user := None; proxy_password := None;
     use_httplib := negb (PyStr.startswith (PyStr.lower platform) "win") |}.

(** [set_proxy] *)
Definition set_proxy (host : option string) (port : option Z)
    (user password : option string) : M unit :=
  modify_self (with_proxy_host host);;
  modify_self (with_proxy_port port);;
  modify_self (with_proxy_user user);;
  modify_self (with_proxy_password password).

Section Dispatch.

(** The fixed product string of the package (azure._USER_AGENT_STRING). *)
Variable _USER_AGENT_STRING : string.
Variable net : transport.

(** *** The connection primitive *)

(** Modelled from the spec: the connection primitive (httplib's two
    connection classes and the alternate connection of azure.http.winhttp),
    an object supporting request-line submission, header writing, body send
    and response retrieval.  What a method does beyond being recorded is
    kept to what the client relies on: [putrequest] and [putheader] buffer
    header lines, [endheaders] sends the buffer, [set_tunnel] stores the
    tunnel target and its headers.

    A method call: it is recorded, then it raises or takes effect. *)
Definition call_on (c : connection) (ev : event)
    (effect : connection -> connection) : result unit * connection :=
  let c' := with_calls (calls c ++ [ev]) c in
  match fault net (calls c') with
  | Some msg => (Raise (TransportError msg), c')
  | None => (Return tt, effect c')
  end.

Definition call (ev : event) (effect : connection -> connection) : M unit := fun s =>
  let (r, c) := call_on (conn s) ev effect in
  (r, {| self := self s; conn := c; heap := heap s |}).

Definition set_tunnel_effect (host : option string) (port : Z)
    (headers : option (gmap string string)) : connection -> connection :=
  with_tunnel host port (default ∅ headers).

Definition putrequest (method url : string) : M unit :=
  call (putrequest_ev method url)
    (fun c => with_buffer (_buffer c ++ request_lines net c method url) c).

Definition set_proxy_credentials (user password : option string) : M unit :=
  call (set_proxy_credentials_ev user password) id.

Definition putheader (name value : string) : M unit :=
  call (putheader_ev name value)
    (fun c => with_buffer (_buffer c ++ [name +:+ ": " +:+ value]) c).

Definition endheaders : M unit :=
  call endheaders_ev (fun c => with_buffer [] (with_sent (sent c ++ _buffer c) c)).

Definition send (data : option bytes) : M unit :=
  call (send_ev data) id.

Definition getresponse : M raw_response :=
  call getresponse_ev id;; mret (response net).

Definition getheaders (resp : raw_response) : M loc := fun s =>
  let l := fresh (dom (heap s)) in
  (Return l, {| self := self s; conn := conn s;
                heap := <[l := resp_headers resp]> (heap s) |}).

(** [resp.read()] reads to exhaustion, [resp.read(n)] at most [n] bytes. *)
Definition read (resp : raw_response) (amt : option Z) : M bytes :=
  call (read_ev amt) id;;
  mret (match amt with
        | None => resp_data resp
        | Some n => take (Z.to_nat n) (resp_data resp)
        end).

Definition close : M unit := call close_ev id.

(** *** get_connection *)

(** Line 76: the request's override, or else the client's protocol. *)
Definition effective_protocol (self : _HTTPClient) (request : HTTPRequest) : string :=
  if truthy (protocol_override request)
  then default "" (protocol_override request) else protocol self.

(** Line 78. *)
Definition default_port (protocol : string) : Z :=
  if String.eqb protocol "http" then HTTP_PORT else HTTPS_PORT.

Definition get_connection (self : _HTTPClient) (request : HTTPRequest) : acquire :=
  let protocol := effective_protocol self request in
  let target_host := host request in
  let target_port := default_port protocol in
  (* lines 100-105, with the local names proxy_host and proxy_port *)
  let tunnel (connection : connection) (proxy_host_ : option string)
             (proxy_port_ : option Z) : acquire :=
    if truthy (proxy_host self) then
      let headers :=
        if truthy (proxy_user self) && truthy (proxy_password self) then
          let auth := Base64.encodestring
                        (PyStr.str_of (proxy_user self) +:+ ":" +:+
                         PyStr.str_of (proxy_password self)) in
          Some {[ "Proxy-Authorization" := "Basic " +:+ auth ]}
        else None in
      match py_int proxy_port_ with
      | Raise e => NotConnected e (Some connection)
      | Return p =>
          match call_on connection (set_tunnel_ev proxy_host_ p headers)
                  (set_tunnel_effect proxy_host_ p headers) with
          | (Raise e, c) => NotConnected e (Some c)
          | (Return _, c) => Connected c
          end
      end
    else Connected connection in
  if negb (use_httplib self) then
    let connection :=
      new_connection WinHTTPConnection (Some target_host) None
        (cert_file self) (Some protocol) in
    tunnel connection (proxy_host self) (proxy_port self)
  else
    let '(proxy_host_, proxy_port_, host_, port_) :=
      if truthy (proxy_host self)
      then (Some target_host, Some target_port, proxy_host self, proxy_port self)
      else (None, None, Some target_host, Some target_port) in
    match py_int port_ with
    | Raise e => NotConnected e None
    | Return p =>
        let connection :=
          if String.eqb protocol "http"
          then new_connection HTTPConnection host_ (Some p) None None
          else new_connection HTTPSConnection host_ (Some p) (cert_file self) None in
        tunnel connection proxy_host_ proxy_port_
    end.

(** *** send_request_headers *)

(** Lines 113-114, the body of the loop over the buffer. *)
Definition strip_host_line (i : string) : M unit :=
  if PyStr.startswith i "Host: " then
    c ← get_conn;
    match list_remove i (_buffer c) with
    | Some buf => modify_conn (with_buffer buf)
    | None => raise (ValueError "list.remove(x): x not in list")
    end
  else mret tt.

(** Lines 112-114: the buffer is changed while it is iterated over. *)
Definition strip_host_lines : M unit :=
  py_for (fun s => _buffer (conn s)) (fun _ i => strip_host_line i).

(** Lines 118-119, the body of the loop over the request headers. *)
Definition put_request_header (nv : string * option string) : M unit :=
  if truthy nv.2 then putheader nv.1 (default "" nv.2) else mret tt.

Definition send_request_headers (request_headers : list (string * option string)) : M unit :=
  self ← get_self;
  (if use_httplib self then
     if truthy (proxy_host self) then
       strip_host_lines;;
       c ← get_conn;
       putheader "Host"
         (PyStr.str_of (_tunnel_host c) +:+ ":" +:+ PyStr.str_of_int (_tunnel_port c))
     else mret tt
   else mret tt);;
  py_for (fun _ => request_headers) (fun _ nv => put_request_header nv);;
  putheader "User-Agent" _USER_AGENT_STRING;;
  endheaders.

(** *** send_request_body

    The body is raw bytes or absent, so the assertion of line 126 holds. *)
Definition send_request_body (request_body : option bytes) : M unit :=
  if truthy request_body then
    send request_body
  else
    c ← get_conn;
    if negb (is_standard (conn_class_of c)) then send None else mret tt.

(** *** perform_request *)

(** Lines 151-152: every entry of the list object is replaced in place. *)
Definition lowercase_names (headers_ : loc) : M unit :=
  py_for (fun s => default [] (heap s !! headers_)) (fun i value =>
    modify_heap (alter (fun l => <[i := (PyStr.lower value.1, value.2)]> l) headers_)).

(** Lines 136-143: the request goes out. *)
Definition emit_request (request : HTTPRequest) : M unit :=
  putrequest (method request) (path request);;
  self ← get_self;
  (if negb (use_httplib self) then
     if truthy (proxy_host self) && truthy (proxy_user self) then
       set_proxy_credentials (proxy_user self) (proxy_password self)
     else mret tt
   else mret tt);;
  send_request_headers (headers request);;
  send_request_body (body request).

(** Lines 145-164: the response comes back. *)
Definition read_response : M HTTPResponse :=
  resp ← getresponse;
  modify_self (with_status (Some (resp_status resp)));;
  modify_self (with_message (Some (resp_reason resp)));;
  headers_ ← getheaders resp;
  modify_self (with_respheader (Some headers_));;
  lowercase_names headers_;;
  respbody ←
    match resp_length resp with
    | None => data ← read resp None; mret (Some data)
    | Some n =>
        if (0 <? n)%Z then data ← read resp (Some n); mret (Some data)
        else mret None
    end;
  let response :=
    {| r_status := resp_status resp; r_message := resp_reason resp;
       r_headers := headers_; r_body := respbody |} in
  self ← get_self;
  if ge_300 (status self) then
    raise (HTTPError (status self) (message self) (respheader self) respbody)
  else mret response.

(** Lines 136-164, the body of the [try]. *)
Definition perform_request_try (request : HTTPRequest) : M HTTPResponse :=
  emit_request request;; read_response.

Definition perform_request (self_ : _HTTPClient) (request : HTTPRequest)
    (h : store) : outcome :=
  match get_connection self_ request with
  | NotConnected e c =>
      {| out_result := Raise e; out_self := self_; out_conn := c; out_heap := h |}
  | Connected connection =>
      let (r, s) :=
        try_finally (perform_request_try request) close
          {| self := self_; conn := connection; heap := h |} in
      {| out_result := r; out_self := self s;
         out_conn := Some (conn s); out_heap := heap s |}
  end.

End Dispatch.

(** ** Observations on a run *)

Definition is_read (ev : event) : bool :=
  match ev with read_ev _ => true | _ => false end.

Definition is_host_line (line : string) : bool := PyStr.startswith line "Host: ".


(** The header lines [putheader] buffers for the request headers that have
    a value. *)
Definition header_lines (hs : list (string * option string)) : list string :=
  map (fun nv => nv.1 +:+ ": " +:+ default "" nv.2)
      (List.filter (fun nv => truthy nv.2) hs).

(** A buffer with its Host header lines taken out. *)
Definition without_host_lines (l : list string) : list string :=
  List.filter (fun line => negb (is_host_line line)) l.

(** The connection at the time it buffers the request line, and the lines
    it buffers then. *)
Definition requested (c : connection) (request : HTTPRequest) : connection :=
  with_calls (calls c ++ [putrequest_ev (method request) (path request)]) c.

Definition buffered (net : transport) (c : connection) (request : HTTPRequest) : list string :=
  request_lines net (requested c request) (method request) (path request).

(** A header list with every name in lower case. *)
Definition lowercased (hs : list (string * string)) : list (string * string) :=
  map (fun nv => (PyStr.lower nv.1, nv.2)) hs.

(** The [putheader] calls made for the request headers that have a value. *)
Definition header_calls (hs : list (string * option string)) : list event :=
  map (fun nv => putheader_ev nv.1 (default "" nv.2))
      (List.filter (fun nv => truthy nv.2) hs).

(** ** Judgements on computations *)

(** Every run of [m] relates the state before to the state after, however
    the run ends. *)
Definition steps (R : relation state) {A} (m : M A) : Prop :=
  forall s, R s (m s).2.

(** Every exception [m] raises satisfies [P]. *)
Definition raises_only (P : exn -> Prop) {A} (m : M A) : Prop :=
  forall s e, (m s).1 = Raise e -> P e.

(** The method calls a request emission makes. *)
Definition is_emit (ev : event) : bool :=
  match ev with
  | putrequest_ev _ _ | set_proxy_credentials_ev _ _ | putheader_ev _ _
  | endheaders_ev | send_ev _ => true
  | _ => false
  end.

(** The connection is the same object, with further calls recorded that
    all satisfy [p], and possibly other header lines buffered and sent;
    the client and the store are untouched. *)
Definition emits (p : event -> bool) : relation state := fun s s' =>
  self s' = self s /\ heap s' = heap s /\
  exists evs buf lines,
    forallb p evs = true /\
    conn s' = with_buffer buf (with_sent lines (with_calls (calls (conn s) ++ evs) (conn s))).

Definition is_transport_error (e : exn) : Prop := exists msg, e = TransportError msg.

(** ** Concrete transports and inputs, for running the model *)

Module Sample.

(** The header lines httplib's putrequest buffers: the request line, a
    Host header for the host the connection was opened to (the port is
    left out when it is the default one of the connection class) and
    Accept-Encoding. *)
Definition httplib_request_lines (c : connection) (method url : string) : list string :=
  let default_port :=
    match conn_class_of c with HTTPConnection => HTTP_PORT | _ => HTTPS_PORT end in
  let hostport :=
    if bool_decide (conn_port c = Some default_port)
    then PyStr.str_of (conn_host c)
    else PyStr.str_of (conn_host c) +:+ ":" +:+ PyStr.str_of_int (conn_port c) in
  [method +:+ " " +:+ url +:+ " HTTP/1.1"; "Host: " +:+ hostport;
   "Accept-Encoding: identity"].

Definition never : list event -> option string := fun _ => None.

Definition ok_response : raw_response :=
  {| resp_status := 200; resp_reason := "OK";
     resp_headers := [("Content-Length", "13")];
     resp_length := Some 13%Z;
     resp_data := list_byte_of_string "hello world!!" |}.

Definition not_found_response : raw_response :=
  {| resp_status := 404; resp_reason := "Not Found";
     resp_headers := [("Content-Length", "9"); ("X-Ms-Request-Id", "42")];
     resp_length := Some 9%Z;
     resp_data := list_byte_of_string "not found" |}.

Definition empty_response : raw_response :=
  {| resp_status := 201; resp_reason := "Created";
     resp_headers := [("Content-Length", "0")];
     resp_length := Some 0%Z;
     resp_data := [] |}.

Definition serving (r : raw_response) : transport :=
  {| fault := never; request_lines := httplib_request_lines; response := r |}.

(** The alternate connection hands the request line to the platform and
    buffers no header line of its own. *)
Definition winhttp_request_lines (c : connection) (method url : string) : list string := [].

Definition serving_windows (r : raw_response) : transport :=
  {| fault := never; request_lines := winhttp_request_lines; response := r |}.

(** A transport whose [n]-th call (counted from 1) raises. *)
Definition failing_at (n : nat) (r : raw_response) : transport :=
  {| fault := fun tr => if bool_decide (length tr = n) then Some "socket error" else None;
     request_lines := httplib_request_lines; response := r |}.

Definition user_agent : string := "pyazure".

Definition posix_client : _HTTPClient :=
  init 0 None None None None None "https" "linux2".

Definition windows_client : _HTTPClient :=
  init 0 None None None None None "https" "win32".

Definition proxied (self : _HTTPClient) (port : option Z)
    (user password : option string) : _HTTPClient :=
  with_proxy_password password
    (with_proxy_user user
       (with_proxy_port port (with_proxy_host (Some "proxy.local") self))).

Definition get_blob : HTTPRequest :=
  {| host := "example.blob.core.windows.net"; method := "GET"; path := "/blob";
     headers := [("x-ms-version", Some "2021-08-06")]; body := None;
     protocol_override := None |}.

(** A transport on which [close], and nothing else, raises. *)
Definition failing_on_close (r : raw_response) : transport :=
  {| fault := fun tr => match last tr with
                        | Some close_ev => Some "close failed"
                        | _ => None
                        end;
     request_lines := httplib_request_lines; response := r |}.


End Sample.

(** * Properties *)

(** ** Strings *)

Lemma lower_ascii_not_upper c : PyStr.is_upper (PyStr.lower_ascii c) = false.
Proof. destruct c as [[] [] [] [] [] [] [] []]; reflexivity. Qed.

Lemma lower_no_upper s : PyStr.no_upper (PyStr.lower s) = true.
Proof.
  induction s as [|c s IH]; simpl; [reflexivity|].
  now rewrite lower_ascii_not_upper, IH.
Qed.

Lemma lowercased_no_upper hs :
  Forall (fun nv : string * string => PyStr.no_upper nv.1 = true) (lowercased hs).
Proof.
  unfold lowercased. apply Forall_map, Forall_forall. intros nv _. simpl.
  apply lower_no_upper.
Qed.

Example lower_content_length : PyStr.lower "Content-Length" = "content-length".
Proof. reflexivity. Qed.

Example encodestring_user_pw :
  Base64.encodestring "user:pw" = "dXNlcjpwdw==" +:+ String Base64.newline "".
Proof. vm_compute. reflexivity. Qed.

Example encodestring_Man :
  Base64.encodestring "Man" = "TWFu" +:+ String Base64.newline "".
Proof. vm_compute. reflexivity. Qed.

(** ** The monad *)

Lemma bind_eq {A B} (m : M A) (f : A -> M B) s :
  (m ≫= f) s =
  match m s with
  | (Return a, s') => f a s'
  | (Raise e, s') => (Raise e, s')
  end.
Proof. reflexivity. Qed.

Lemma ret_eq {A} (a : A) s : (mret a : M A) s = (Return a, s).
Proof. reflexivity. Qed.

Lemma get_self_eq s : get_self s = (Return (self s), s).
Proof. reflexivity. Qed.

Lemma get_conn_eq s : get_conn s = (Return (conn s), s).
Proof. reflexivity. Qed.

Lemma state_eta s : {| self := self s; conn := conn s; heap := heap s |} = s.
Proof. now destruct s. Qed.

Section Frames.

Context (R : relation state) `{!PreOrder R}.

Lemma steps_ret {A} (a : A) : steps R (mret a : M A).
Proof. intros s. simpl. reflexivity. Qed.

Lemma steps_raise {A} e : steps R (raise e : M A).
Proof. intros s. simpl. reflexivity. Qed.

Lemma steps_get_self : steps R get_self.
Proof. intros s. simpl. reflexivity. Qed.

Lemma steps_get_conn : steps R get_conn.
Proof. intros s. simpl. reflexivity. Qed.

Lemma steps_bind {A B} (m : M A) (f : A -> M B) :
  steps R m -> (forall a, steps R (f a)) -> steps R (m ≫= f).
Proof.
  intros Hm Hf s. rewrite bind_eq. specialize (Hm s).
  destruct (m s) as [[a|e] s1]; simpl in *; [|exact Hm].
  etransitivity; [exact Hm | apply Hf].
Qed.

Lemma steps_for_in {A} (live : state -> list A) body :
  (forall i x, steps R (body i x)) ->
  forall fuel idx, steps R (for_in fuel idx live body).
Proof.
  intros Hb fuel. induction fuel as [|fuel IH]; intros idx s; simpl.
  - destruct (live s !! idx); simpl; reflexivity.
  - destruct (live s !! idx) as [x|]; simpl; [|reflexivity].
    apply (steps_bind (body idx x) (fun _ => for_in fuel (S idx) live body)); auto.
Qed.

Lemma steps_py_for {A} (live : state -> list A) body :
  (forall i x, steps R (body i x)) -> steps R (py_for live body).
Proof. intros Hb s. unfold py_for. now apply steps_for_in. Qed.

End Frames.

(** One step of a frame argument: through the structure of a computation,
    down to the calls on the connection. *)
Ltac frame :=
  match goal with
  | |- PreOrder _ => typeclasses eauto
  | |- steps _ (mret _) => apply steps_ret
  | |- steps _ (raise _) => apply steps_raise
  | |- steps _ get_self => apply steps_get_self
  | |- steps _ get_conn => apply steps_get_conn
  | |- steps _ (_ ≫= _) => apply steps_bind; [| |intros ?]
  | |- steps _ (if ?b then _ else _) => destruct b
  | |- steps _ (match ?x with _ => _ end) => destruct x
  end.

Section Raises.

Context (P : exn -> Prop).

Lemma raises_ret {A} (a : A) : raises_only P (mret a : M A).
Proof. intros s e; simpl; discriminate. Qed.

Lemma raises_get_self : raises_only P get_self.
Proof. intros s e; simpl; discriminate. Qed.

Lemma raises_get_conn : raises_only P get_conn.
Proof. intros s e; simpl; discriminate. Qed.

Lemma raises_bind {A B} (m : M A) (f : A -> M B) :
  raises_only P m -> (forall a, raises_only P (f a)) -> raises_only P (m ≫= f).
Proof.
  intros Hm Hf s e. rewrite bind_eq. specialize (Hm s).
  destruct (m s) as [[a|e'] s1]; simpl in *.
  - apply Hf.
  - intros [= <-]. now apply Hm.
Qed.

(** A loop never runs out of fuel when its body does not lengthen the
    list it iterates over. *)
Lemma raises_for_in {A} (live : state -> list A) body :
  (forall i x s e, live s !! i = Some x -> (body i x s).1 = Raise e -> P e) ->
  (forall i x s, length (live (body i x s).2) <= length (live s)) ->
  forall fuel idx s e,
    length (live s) <= idx + fuel ->
    (for_in fuel idx live body s).1 = Raise e -> P e.
Proof.
  intros Hb Hlen fuel. induction fuel as [|fuel IH]; intros idx s e Hfuel; simpl.
  - destruct (live s !! idx) as [x|] eqn:Hx; simpl; [|discriminate].
    apply lookup_lt_Some in Hx. lia.
  - destruct (live s !! idx) as [x|] eqn:Hx; simpl; [|discriminate].
    rewrite bind_eq. specialize (Hb idx x s). specialize (Hlen idx x s).
    destruct (body idx x s) as [[[]|e'] s1]; simpl in *.
    + apply IH. lia.
    + intros [= <-]. now apply Hb.
Qed.

Lemma raises_py_for {A} (live : state -> list A) body :
  (forall i x s e, live s !! i = Some x -> (body i x s).1 = Raise e -> P e) ->
  (forall i x s, length (live (body i x s).2) <= length (live s)) ->
  raises_only P (py_for live body).
Proof.
  intros Hb Hlen s e. unfold py_for. apply raises_for_in; auto.
Qed.

End Raises.

(** ** Lists *)

Lemma list_remove_lookup (l : list string) i x :
  l !! i = Some x ->
  exists l', list_remove x l = Some l' /\ length l = S (length l').
Proof.
  revert i. induction l as [|y l IH]; intros i Hi; [discriminate|].
  simpl. destruct (String.eqb x y) eqn:Hxy; [eauto|].
  destruct i as [|i]; simpl in Hi.
  - injection Hi as ->. now rewrite String.eqb_refl in Hxy.
  - destruct (IH _ Hi) as (l' & -> & Hlen). simpl.
    exists (y :: l'). split; [reflexivity | simpl; now rewrite Hlen].
Qed.

Lemma list_remove_length (l l' : list string) x :
  list_remove x l = Some l' -> length l = S (length l').
Proof.
  revert l'. induction l as [|y l IH]; intros l' Hl; [discriminate|].
  simpl in Hl. destruct (String.eqb x y).
  - now injection Hl as <-.
  - destruct (list_remove x l) as [l''|]; [|discriminate].
    injection Hl as <-. simpl. now rewrite (IH _ eq_refl).
Qed.



(** ** Connection updates

    The updates of a connection commute and absorb each other; the
    rewrite base [conn] brings a sequence of updates to the form
    [with_buffer _ (with_sent _ (with_calls _ c))] and reads fields
    through it. *)

Lemma buffer_with_buffer b c : _buffer (with_buffer b c) = b.
Proof. reflexivity. Qed.
Lemma buffer_with_sent l c : _buffer (with_sent l c) = _buffer c.
Proof. reflexivity. Qed.
Lemma buffer_with_calls t c : _buffer (with_calls t c) = _buffer c.
Proof. reflexivity. Qed.
Lemma sent_with_buffer b c : sent (with_buffer b c) = sent c.
Proof. reflexivity. Qed.
Lemma sent_with_sent l c : sent (with_sent l c) = l.
Proof. reflexivity. Qed.
Lemma sent_with_calls t c : sent (with_calls t c) = sent c.
Proof. reflexivity. Qed.
Lemma calls_with_buffer b c : calls (with_buffer b c) = calls c.
Proof. reflexivity. Qed.
Lemma calls_with_sent l c : calls (with_sent l c) = calls c.
Proof. reflexivity. Qed.
Lemma calls_with_calls t c : calls (with_calls t c) = t.
Proof. reflexivity. Qed.
Lemma tunnel_host_with_buffer b c : _tunnel_host (with_buffer b c) = _tunnel_host c.
Proof. reflexivity. Qed.
Lemma tunnel_host_with_sent l c : _tunnel_host (with_sent l c) = _tunnel_host c.
Proof. reflexivity. Qed.
Lemma tunnel_host_with_calls t c : _tunnel_host (with_calls t c) = _tunnel_host c.
Proof. reflexivity. Qed.
Lemma tunnel_port_with_buffer b c : _tunnel_port (with_buffer b c) = _tunnel_port c.
Proof. reflexivity. Qed.
Lemma tunnel_port_with_sent l c : _tunnel_port (with_sent l c) = _tunnel_port c.
Proof. reflexivity. Qed.
Lemma tunnel_port_with_calls t c : _tunnel_port (with_calls t c) = _tunnel_port c.
Proof. reflexivity. Qed.
Lemma class_with_buffer b c : conn_class_of (with_buffer b c) = conn_class_of c.
Proof. reflexivity. Qed.
Lemma class_with_sent l c : conn_class_of (with_sent l c) = conn_class_of c.
Proof. reflexivity. Qed.
Lemma class_with_calls t c : conn_class_of (with_calls t c) = conn_class_of c.
Proof. reflexivity. Qed.

Lemma with_buffer_with_buffer b b' c : with_buffer b (with_buffer b' c) = with_buffer b c.
Proof. reflexivity. Qed.
Lemma with_sent_with_sent l l' c : with_sent l (with_sent l' c) = with_sent l c.
Proof. reflexivity. Qed.
Lemma with_calls_with_calls t t' c : with_calls t (with_calls t' c) = with_calls t c.
Proof. reflexivity. Qed.
Lemma with_sent_with_buffer l b c :
  with_sent l (with_buffer b c) = with_buffer b (with_sent l c).
Proof. reflexivity. Qed.
Lemma with_calls_with_buffer t b c :
  with_calls t (with_buffer b c) = with_buffer b (with_calls t c).
Proof. reflexivity. Qed.
Lemma with_calls_with_sent t l c :
  with_calls t (with_sent l c) = with_sent l (with_calls t c).
Proof. reflexivity. Qed.

Create Rewrite HintDb conn.
#[global] Hint Rewrite
  buffer_with_buffer buffer_with_sent buffer_with_calls
  sent_with_buffer sent_with_sent sent_with_calls
  calls_with_buffer calls_with_sent calls_with_calls
  tunnel_host_with_buffer tunnel_host_with_sent tunnel_host_with_calls
  tunnel_port_with_buffer tunnel_port_with_sent tunnel_port_with_calls
  class_with_buffer class_with_sent class_with_calls
  with_buffer_with_buffer with_sent_with_sent with_calls_with_calls
  with_sent_with_buffer with_calls_with_buffer with_calls_with_sent : conn.

(** ** The recorded calls *)

Lemma with_calls_eta c :
  with_buffer (_buffer c) (with_sent (sent c) (with_calls (calls c ++ []) c)) = c.
Proof. destruct c; unfold with_buffer, with_sent, with_calls; simpl. now rewrite app_nil_r. Qed.

#[global] Instance emits_preorder p : PreOrder (emits p).
Proof.
  split.
  - intros s. repeat split; auto. exists [], (_buffer (conn s)), (sent (conn s)).
    split; [reflexivity|]. now rewrite with_calls_eta.
  - intros s1 s2 s3 (Hs1 & Hh1 & evs1 & b1 & l1 & Hp1 & Hc1)
                    (Hs2 & Hh2 & evs2 & b2 & l2 & Hp2 & Hc2).
    split; [congruence|]. split; [congruence|].
    exists (evs1 ++ evs2), b2, l2. split.
    + rewrite forallb_app. now rewrite Hp1, Hp2.
    + rewrite Hc2, Hc1. autorewrite with conn. now rewrite app_assoc.
Qed.

Lemma emits_calls p s s' :
  emits p s s' ->
  exists evs, forallb p evs = true /\ calls (conn s') = calls (conn s) ++ evs.
Proof.
  intros (_ & _ & evs & buf & lines & Hp & ->). exists evs. now split.
Qed.

Lemma steps_modify_buffer p buf : steps (emits p) (modify_conn (with_buffer buf)).
Proof.
  intros s. simpl. repeat split; auto.
  exists [], buf, (sent (conn s)). split; [reflexivity|].
  rewrite <- (with_calls_eta (conn s)) at 1. reflexivity.
Qed.

(** ** The connection primitive *)

Section Calls.

Context (ua : string) (net : transport).

Lemma call_eq ev eff s :
  call net ev eff s =
  let c' := with_calls (calls (conn s) ++ [ev]) (conn s) in
  match fault net (calls (conn s) ++ [ev]) with
  | Some msg => (Raise (TransportError msg), {| self := self s; conn := c'; heap := heap s |})
  | None => (Return tt, {| self := self s; conn := eff c'; heap := heap s |})
  end.
Proof. unfold call, call_on. simpl. now destruct (fault net _). Qed.

Lemma id_buffer_effect (c : connection) :
  exists buf lines, id c = with_buffer buf (with_sent lines c).
Proof. exists (_buffer c), (sent c). now destruct c. Qed.

Lemma steps_call p ev eff :
  p ev = true ->
  (forall c, exists buf lines, eff c = with_buffer buf (with_sent lines c)) ->
  steps (emits p) (call net ev eff).
Proof.
  intros Hp Heff s. rewrite call_eq. simpl.
  destruct (fault net _); simpl; repeat split; auto.
  - exists [ev], (_buffer (conn s)), (sent (conn s)). split.
    + simpl. now rewrite Hp.
    + now destruct (conn s).
  - destruct (Heff (with_calls (calls (conn s) ++ [ev]) (conn s))) as (buf & lines & ->).
    exists [ev], buf, lines. split; [|reflexivity]. simpl. now rewrite Hp.
Qed.

(** *** What the emission of a request leaves untouched *)

Section EmitSteps.

Context (p : event -> bool) (Hp : forall ev, is_emit ev = true -> p ev = true).

Lemma steps_putrequest m u : steps (emits p) (putrequest net m u).
Proof.
  apply steps_call; [now apply Hp|]. intros c.
  exists (_buffer c ++ request_lines net c m u), (sent c). now destruct c.
Qed.

Lemma steps_putheader n v : steps (emits p) (putheader net n v).
Proof.
  apply steps_call; [now apply Hp|]. intros c.
  exists (_buffer c ++ [n +:+ ": " +:+ v]), (sent c). now destruct c.
Qed.

Lemma steps_endheaders : steps (emits p) (endheaders net).
Proof.
  apply steps_call; [now apply Hp|]. intros c.
  exists [], (sent c ++ _buffer c). now destruct c.
Qed.

Lemma steps_send data : steps (emits p) (send net data).
Proof. apply steps_call; [now apply Hp|]. apply id_buffer_effect. Qed.

Lemma steps_set_proxy_credentials u pw :
  steps (emits p) (set_proxy_credentials net u pw).
Proof. apply steps_call; [now apply Hp|]. apply id_buffer_effect. Qed.

Lemma steps_strip_host_lines : steps (emits p) strip_host_lines.
Proof.
  apply steps_py_for; [typeclasses eauto|]. intros i x. unfold strip_host_line.
  repeat frame. apply steps_modify_buffer.
Qed.

Lemma steps_send_request_headers hs : steps (emits p) (send_request_headers ua net hs).
Proof.
  unfold send_request_headers. repeat frame;
    auto using steps_strip_host_lines, steps_putheader, steps_endheaders.
  apply steps_py_for; [typeclasses eauto|]. intros i nv. unfold put_request_header.
  repeat frame. apply steps_putheader.
Qed.

Lemma steps_send_request_body b : steps (emits p) (send_request_body net b).
Proof. unfold send_request_body. repeat frame; apply steps_send. Qed.

Lemma steps_emit_request req : steps (emits p) (emit_request ua net req).
Proof.
  unfold emit_request. repeat frame;
    auto using steps_putrequest, steps_set_proxy_credentials,
      steps_send_request_headers, steps_send_request_body.
Qed.

End EmitSteps.

(** *** What the emission of a request can raise *)

Section EmitRaises.

Context (P : exn -> Prop)
        (HP : forall tr msg, fault net tr = Some msg -> P (TransportError msg)).

Lemma raises_call ev eff : raises_only P (call net ev eff).
Proof.
  intros s e. rewrite call_eq. simpl.
  destruct (fault net _) eqn:Hf; simpl; [|discriminate].
  intros [= <-]. eapply HP, Hf.
Qed.

Lemma raises_strip_host_lines : raises_only P strip_host_lines.
Proof.
  apply raises_py_for.
  - intros i x s e Hx. unfold strip_host_line.
    destruct (PyStr.startswith x "Host: "); [|discriminate].
    rewrite bind_eq. simpl.
    destruct (list_remove_lookup _ _ _ Hx) as (l' & -> & _). discriminate.
  - intros i x s. unfold strip_host_line.
    destruct (PyStr.startswith x "Host: "); [|reflexivity].
    rewrite bind_eq. simpl.
    destruct (list_remove x (_buffer (conn s))) as [l'|] eqn:Hl; simpl; [|lia].
    apply list_remove_length in Hl. lia.
Qed.

Ltac raising :=
  match goal with
  | |- raises_only _ (mret _) => apply raises_ret
  | |- raises_only _ get_self => apply raises_get_self
  | |- raises_only _ get_conn => apply raises_get_conn
  | |- raises_only _ (_ ≫= _) => apply raises_bind; [|intros ?]
  | |- raises_only _ (if ?b then _ else _) => destruct b
  | |- raises_only _ _ => apply raises_call
  end.

Lemma raises_send_request_headers hs : raises_only P (send_request_headers ua net hs).
Proof.
  unfold send_request_headers. repeat raising; auto using raises_strip_host_lines.
  apply raises_py_for.
  - intros i nv s e _. unfold put_request_header.
    destruct (truthy nv.2); [apply raises_call|discriminate].
  - intros. lia.
Qed.

Lemma raises_send_request_body b : raises_only P (send_request_body net b).
Proof. unfold send_request_body. repeat raising. Qed.

Lemma raises_emit_request req : raises_only P (emit_request ua net req).
Proof.
  unfold emit_request. repeat raising;
    auto using raises_send_request_headers, raises_send_request_body.
Qed.

End EmitRaises.

End Calls.

(** ** Normalising the header names *)

Lemma lowercase_loop (l : loc) (suf pre : list (string * string)) :
  forall fuel s,
    heap s !! l = Some (pre ++ suf) ->
    length suf <= fuel ->
    for_in fuel (length pre) (fun s => default [] (heap s !! l))
      (fun i value =>
         modify_heap (alter (fun hs => <[i := (PyStr.lower value.1, value.2)]> hs) l)) s
    = (Return tt, {| self := self s; conn := conn s;
                     heap := <[l := pre ++ lowercased suf]> (heap s) |}).
Proof.
  revert pre. induction suf as [|x suf IH]; intros pre fuel s Hl Hfuel.
  - assert (Hnone : (pre ++ []) !! length pre = None).
    { apply lookup_ge_None_2. rewrite length_app. simpl. lia. }
    destruct fuel; simpl; rewrite Hl; simpl; rewrite Hnone;
      unfold lowercased; simpl; rewrite (insert_id _ _ _ Hl); now rewrite state_eta.
  - destruct fuel as [|fuel]; [simpl in Hfuel; lia|].
    simpl. rewrite Hl. simpl. rewrite list_lookup_middle by reflexivity.
    rewrite bind_eq. simpl.
    replace (S (length pre)) with (length (pre ++ [(PyStr.lower x.1, x.2)]))
      by (rewrite length_app; simpl; lia).
    rewrite (IH (pre ++ [(PyStr.lower x.1, x.2)])).
    + simpl. rewrite insert_alter_eq. unfold lowercased. simpl.
      now rewrite <- app_assoc.
    + simpl. rewrite lookup_alter_eq, Hl. simpl.
      rewrite insert_app_r_alt by lia. rewrite Nat.sub_diag. simpl.
      now rewrite <- app_assoc.
    + simpl in Hfuel. lia.
Qed.

Lemma lowercase_names_eq l s hs :
  heap s !! l = Some hs ->
  lowercase_names l s =
  (Return tt, {| self := self s; conn := conn s;
                 heap := <[l := lowercased hs]> (heap s) |}).
Proof.
  intros Hl. unfold lowercase_names, py_for. rewrite Hl. simpl.
  now apply (lowercase_loop l hs []).
Qed.

(** ** Reading the response *)

Section Response.

Context (ua : string) (net : transport).

(** [read_response], call by call. *)
Lemma read_response_cases s :
  let resp := response net in
  let l := fresh (dom (heap s)) in
  let c1 := with_calls (calls (conn s) ++ [getresponse_ev]) (conn s) in
  let self1 :=
    with_respheader (Some l)
      (with_message (Some (resp_reason resp))
         (with_status (Some (resp_status resp)) (self s))) in
  let h1 := <[l := lowercased (resp_headers resp)]> (heap s) in
  let finish (respbody : option bytes) (c : connection) :=
    (if (300 <=? resp_status resp)%Z
     then Raise (HTTPError (Some (resp_status resp)) (Some (resp_reason resp))
                   (Some l) respbody)
     else Return {| r_status := resp_status resp; r_message := resp_reason resp;
                    r_headers := l; r_body := respbody |},
     {| self := self1; conn := c; heap := h1 |}) in
  let reading (amt : option Z) (data : bytes) :=
    let c2 := with_calls (calls c1 ++ [read_ev amt]) c1 in
    match fault net (calls c2) with
    | Some msg => (Raise (TransportError msg), {| self := self1; conn := c2; heap := h1 |})
    | None => finish (Some data) c2
    end in
  read_response net s =
  match fault net (calls c1) with
  | Some msg =>
      (Raise (TransportError msg), {| self := self s; conn := c1; heap := heap s |})
  | None =>
      match resp_length resp with
      | None => reading None (resp_data resp)
      | Some n =>
          if (0 <? n)%Z
          then reading (Some n) (take (Z.to_nat n) (resp_data resp))
          else finish None c1
      end
  end.
Proof.
  intros resp l c1 self1 h1 finish reading.
  unfold read_response, getresponse. rewrite !bind_eq, call_eq. simpl.
  destruct (fault net (calls (conn s) ++ [getresponse_ev])) as [msg|] eqn:Hg;
    [reflexivity|].
  simpl. rewrite !bind_eq. simpl. rewrite !bind_eq. simpl.
  unfold getheaders. simpl. rewrite !bind_eq. simpl. rewrite bind_eq.
  rewrite (lowercase_names_eq _ _ (resp_headers (response net)))
    by (simpl; apply lookup_insert_eq).
  simpl. rewrite insert_insert_eq. rewrite bind_eq.
  fold resp l h1.
  destruct (resp_length resp) as [n|] eqn:Hlen.
  - destruct (0 <? n)%Z eqn:Hn.
    + unfold read. rewrite !bind_eq, call_eq. simpl.
      unfold reading. simpl.
      destruct (fault net (_ ++ [read_ev _])) as [msg|]; [reflexivity|]. simpl.
      unfold finish. rewrite ?bind_eq. cbn -[Z.leb].
      destruct (300 <=? resp_status resp)%Z; reflexivity.
    + simpl. unfold finish. rewrite ?bind_eq. cbn -[Z.leb].
      destruct (300 <=? resp_status resp)%Z; reflexivity.
  - unfold read. rewrite !bind_eq, call_eq. simpl.
    unfold reading. simpl.
    destruct (fault net (_ ++ [read_ev _])) as [msg|]; [reflexivity|]. simpl.
    unfold finish. rewrite ?bind_eq. cbn -[Z.leb].
      destruct (300 <=? resp_status resp)%Z; reflexivity.
Qed.

End Response.

(** ** Acquiring the connection *)

Section Acquire.

Context (net : transport).

(** A connection that was acquired has seen no call but, when a proxy is
    configured, the one setting up the tunnel; it is of a standard class
    exactly when the client uses httplib. *)
Lemma get_connection_fresh self_ req c :
  get_connection net self_ req = Connected c ->
  _buffer c = [] /\ sent c = [] /\ closes c = 0 /\
  is_standard (conn_class_of c) = use_httplib self_ /\
  (calls c = [] \/ exists h p hd, calls c = [set_tunnel_ev h p hd]).
Proof.
  unfold get_connection, call_on, py_int.
  destruct (use_httplib self_); simpl;
    repeat case_match; simplify_eq; intros [= <-]; simpl;
    repeat split; auto; try (right; eauto).
Qed.

(** Through a proxy on the standard path, the tunnel leads to the request's
    host at the default port of the effective protocol. *)
Lemma get_connection_tunnel self_ req c :
  use_httplib self_ = true ->
  truthy (proxy_host self_) = true ->
  get_connection net self_ req = Connected c ->
  _tunnel_host c = Some (host req) /\
  _tunnel_port c = Some (default_port (effective_protocol self_ req)).
Proof.
  intros Hu Hp. unfold get_connection, call_on, py_int. rewrite Hu, Hp. simpl.
  repeat case_match; simplify_eq; intros [= <-]; now split.
Qed.

Lemma get_connection_raises self_ req e oc :
  get_connection net self_ req = NotConnected e oc ->
  (exists msg, e = TypeError msg) \/ is_transport_error e.
Proof.
  unfold get_connection, call_on, py_int, is_transport_error.
  repeat case_match; simplify_eq; intros [= <- <-]; eauto.
Qed.

End Acquire.

(** ** The dispatch, piece by piece *)

Section DispatchFacts.

Context (ua : string) (net : transport).

Lemma perform_request_try_eq req s :
  perform_request_try ua net req s =
  match emit_request ua net req s with
  | (Return _, s1) => read_response net s1
  | (Raise e, s1) => (Raise e, s1)
  end.
Proof. unfold perform_request_try. now rewrite bind_eq. Qed.

(** The [finally] clause: whatever the [try] did, [close] is called on the
    connection next, and an exception it raises replaces the outcome. *)
Lemma perform_request_connected self_ req h c :
  get_connection net self_ req = Connected c ->
  exists r s,
    perform_request_try ua net req {| self := self_; conn := c; heap := h |} = (r, s) /\
    out_self (perform_request ua net self_ req h) = self s /\
    out_heap (perform_request ua net self_ req h) = heap s /\
    out_conn (perform_request ua net self_ req h) =
      Some (with_calls (calls (conn s) ++ [close_ev]) (conn s)) /\
    out_result (perform_request ua net self_ req h) =
      match fault net (calls (conn s) ++ [close_ev]) with
      | Some msg => Raise (TransportError msg)
      | None => r
      end.
Proof.
  intros Hc. unfold perform_request. rewrite Hc. unfold try_finally.
  destruct (perform_request_try ua net req _) as [r s]. exists r, s.
  split; [reflexivity|]. unfold close. rewrite call_eq. simpl.
  destruct (fault net _); simpl; now repeat split.
Qed.

Lemma read_response_calls s :
  exists evs,
    conn (read_response net s).2 = with_calls (calls (conn s) ++ evs) (conn s) /\
    (evs = [getresponse_ev] \/ exists amt, evs = [getresponse_ev; read_ev amt]).
Proof.
  rewrite read_response_cases. cbv zeta.
  assert (Hw : forall amt,
    with_calls (calls (with_calls (calls (conn s) ++ [getresponse_ev]) (conn s))
                  ++ [read_ev amt])
      (with_calls (calls (conn s) ++ [getresponse_ev]) (conn s))
    = with_calls (calls (conn s) ++ [getresponse_ev; read_ev amt]) (conn s)).
  { intros amt. unfold with_calls. simpl. now rewrite <- app_assoc. }
  repeat case_match; simpl; rewrite ?Hw; eauto.
Qed.

End DispatchFacts.

(** * The claims *)

(** ** set_proxy *)

(** C7: [set_proxy host port user password] returns normally for all
    arguments (nothing is validated), the four proxy attributes of the
    client are exactly the arguments afterwards, and every other attribute
    of the client, the connection and the store are as before. *)
Theorem set_proxy_stores_arguments host port user password (s : state) :
  (set_proxy host port user password s).1 = Return tt /\
  conn (set_proxy host port user password s).2 = conn s /\
  heap (set_proxy host port user password s).2 = heap s /\
  proxy_host (self (set_proxy host port user password s).2) = host /\
  proxy_port (self (set_proxy host port user password s).2) = port /\
  proxy_user (self (set_proxy host port user password s).2) = user /\
  proxy_password (self (set_proxy host port user password s).2) = password /\
  service_instance (self (set_proxy host port user password s).2) = service_instance (self s) /\
  status (self (set_proxy host port user password s).2) = status (self s) /\
  respheader (self (set_proxy host port user password s).2) = respheader (self s) /\
  message (self (set_proxy host port user password s).2) = message (self s) /\
  cert_file (self (set_proxy host port user password s).2) = cert_file (self s) /\
  account_name (self (set_proxy host port user password s).2) = account_name (self s) /\
  account_key (self (set_proxy host port user password s).2) = account_key (self s) /\
  service_namespace (self (set_proxy host port user password s).2) = service_namespace (self s) /\
  issuer (self (set_proxy host port user password s).2) = issuer (self s) /\
  protocol (self (set_proxy host port user password s).2) = protocol (self s) /\
  use_httplib (self (set_proxy host port user password s).2) = use_httplib (self s).
Proof. unfold set_proxy. rewrite !bind_eq. simpl. now repeat split. Qed.

(** ** send_request_body *)

(** C5: when no request body is supplied ([None], or an empty byte
    string), [send_request_body] makes exactly one call on a connection
    that is neither HTTPConnection nor HTTPSConnection, the empty send
    [send(None)], and no call at all on a connection of one of the two
    standard classes. *)
Theorem send_request_body_without_body net (request_body : option bytes) (s : state) :
  truthy request_body = false ->
  calls (conn (send_request_body net request_body s).2) =
  calls (conn s) ++
    (if is_standard (conn_class_of (conn s)) then [] else [send_ev None]).
Proof.
  intros Hb. unfold send_request_body. rewrite Hb, bind_eq. simpl.
  destruct (is_standard (conn_class_of (conn s))); simpl.
  - now rewrite app_nil_r.
  - unfold send. rewrite call_eq. simpl. now destruct (fault net _).
Qed.

Lemma send_request_body_without_body_witness :
  calls (conn (send_request_body (Sample.serving_windows Sample.ok_response) None
                 {| self := Sample.windows_client;
                    conn := new_connection WinHTTPConnection (Some "example") None None
                              (Some "https");
                    heap := ∅ |}).2)
  = [send_ev None].
Proof.
  apply (send_request_body_without_body (Sample.serving_windows Sample.ok_response) None).
  reflexivity.
Defined.

(** ** get_connection *)

(** C6, as stated, fails: with a proxy configured, the connection of a
    client whose effective protocol is https is opened to the proxy's port
    (8080 here), not to 443. *)
Lemma connection_port_is_the_proxy_port :
  effective_protocol (Sample.proxied Sample.posix_client (Some 8080%Z) None None)
    Sample.get_blob = "https" /\
  exists c,
    get_connection (Sample.serving Sample.ok_response)
      (Sample.proxied Sample.posix_client (Some 8080%Z) None None) Sample.get_blob
    = Connected c /\
    conn_port c = Some 8080%Z /\ conn_port c <> Some 443%Z.
Proof.
  split; [reflexivity|]. eexists. split; [reflexivity|]. simpl. split; congruence.
Qed.

(** C6, amended: the target port is 80 when the effective protocol (the
    request's override, or else the client's protocol) is "http" and 443
    otherwise, and the request has no other say in it.  On the standard
    path, the connection is opened to that port when no proxy is
    configured; with a proxy, it is opened to the proxy's port and the
    tunnel leads to the request's host at the target port.  The alternate
    connection is given no port, and its tunnel is set to the proxy. *)
Theorem get_connection_ports net self_ req c :
  get_connection net self_ req = Connected c ->
  (effective_protocol self_ req =
     if truthy (protocol_override req)
     then default "" (protocol_override req) else protocol self_) /\
  (default_port (effective_protocol self_ req) =
     if String.eqb (effective_protocol self_ req) "http" then 80%Z else 443%Z) /\
  (use_httplib self_ = true -> truthy (proxy_host self_) = false ->
     conn_port c = Some (default_port (effective_protocol self_ req)) /\
     conn_host c = Some (host req) /\ _tunnel_port c = None) /\
  (use_httplib self_ = true -> truthy (proxy_host self_) = true ->
     conn_port c = proxy_port self_ /\ conn_host c = proxy_host self_ /\
     _tunnel_host c = Some (host req) /\
     _tunnel_port c = Some (default_port (effective_protocol self_ req))) /\
  (use_httplib self_ = false ->
     conn_port c = None /\ conn_host c = Some (host req) /\
     (truthy (proxy_host self_) = true ->
        _tunnel_host c = proxy_host self_ /\ _tunnel_port c = proxy_port self_)).
Proof.
  intros Hc. split; [reflexivity|]. split; [reflexivity|].
  revert Hc. unfold get_connection, call_on, py_int.
  destruct (use_httplib self_); simpl;
    repeat case_match; simplify_eq; intros [= <-]; simpl;
    repeat split; intros; simplify_eq; auto; try congruence.
Qed.

Lemma get_connection_ports_witness :
  exists c,
    get_connection (Sample.serving Sample.ok_response) Sample.posix_client Sample.get_blob
      = Connected c /\
    conn_port c = Some 443%Z.
Proof.
  eexists. split; [reflexivity|].
  apply (get_connection_ports (Sample.serving Sample.ok_response)
           Sample.posix_client Sample.get_blob _ eq_refl); reflexivity.
Defined.

(** C10: on the standard-connection path with a proxy configured, the
    tunnel set up by [get_connection] carries a Proxy-Authorization header
    if and only if the proxy user and the proxy password are both set and
    non-empty; the header then reads "Basic " followed by the base64
    encoding of "user:password".  If either is missing, the tunnel is set
    up with no headers at all. *)
Theorem tunnel_authorization net self_ req c :
  use_httplib self_ = true ->
  truthy (proxy_host self_) = true ->
  get_connection net self_ req = Connected c ->
  (is_Some (_tunnel_headers c !! "Proxy-Authorization") <->
     truthy (proxy_user self_) = true /\ truthy (proxy_password self_) = true) /\
  (truthy (proxy_user self_) = true -> truthy (proxy_password self_) = true ->
     let auth := {[ "Proxy-Authorization" :=
                      "Basic " +:+ Base64.encodestring
                         (PyStr.str_of (proxy_user self_) +:+ ":" +:+
                          PyStr.str_of (proxy_password self_)) ]} in
     _tunnel_headers c = auth /\
     calls c = [set_tunnel_ev (Some (host req))
                  (default_port (effective_protocol self_ req)) (Some auth)]) /\
  (truthy (proxy_user self_) && truthy (proxy_password self_) = false ->
     _tunnel_headers c = ∅ /\
     calls c = [set_tunnel_ev (Some (host req))
                  (default_port (effective_protocol self_ req)) None]).
Proof.
  intros Hu Hp. unfold get_connection, call_on, py_int. rewrite Hu, Hp. simpl.
  destruct (truthy (proxy_user self_)), (truthy (proxy_password self_)); simpl;
    repeat case_match; simplify_eq; intros [= <-]; simpl;
    (split; [split|split]); intros; simplify_eq;
    try (destruct_and?; discriminate); auto.
  all: try (rewrite lookup_empty in *; by destruct_and?).
  all: try by rewrite lookup_singleton_eq.
Qed.

Lemma tunnel_authorization_witness :
  exists c,
    get_connection (Sample.serving Sample.ok_response)
      (Sample.proxied Sample.posix_client (Some 8080%Z) (Some "user") (Some "pw"))
      Sample.get_blob = Connected c /\
    _tunnel_headers c =
      {[ "Proxy-Authorization" := "Basic " +:+ Base64.encodestring "user:pw" ]}.
Proof.
  eexists. split; [reflexivity|].
  apply (tunnel_authorization (Sample.serving Sample.ok_response)
           (Sample.proxied Sample.posix_client (Some 8080%Z) (Some "user") (Some "pw"))
           Sample.get_blob _ eq_refl eq_refl eq_refl); reflexivity.
Defined.

(** ** Releasing the connection *)

Lemma emit_events_no_close evs :
  forallb is_emit evs = true -> filter is_close evs = [].
Proof.
  induction evs as [|ev evs IH]; simpl; [reflexivity|].
  intros [Hev Hevs]%andb_prop. rewrite filter_cons, (IH Hevs).
  destruct ev; simpl in *; try discriminate; reflexivity.
Qed.

Lemma emit_events_no_read evs :
  forallb is_emit evs = true -> filter is_read evs = [].
Proof.
  induction evs as [|ev evs IH]; simpl; [reflexivity|].
  intros [Hev Hevs]%andb_prop. rewrite filter_cons, (IH Hevs).
  destruct ev; simpl in *; try discriminate; reflexivity.
Qed.

(** C3, as stated, fails: a dispatch on the alternate connection with a
    proxy host but no proxy port constructs the connection object and then
    raises while setting up the tunnel, before the [try] is entered; the
    exception propagates and [close] is never called on the connection. *)
Lemma close_not_called_when_acquisition_raises :
  exists e c,
    out_result (perform_request Sample.user_agent
                  (Sample.serving_windows Sample.ok_response)
                  (Sample.proxied Sample.windows_client None None None)
                  Sample.get_blob ∅) = Raise e /\
    out_conn (perform_request Sample.user_agent
                (Sample.serving_windows Sample.ok_response)
                (Sample.proxied Sample.windows_client None None None)
                Sample.get_blob ∅) = Some c /\
    conn_class_of c = WinHTTPConnection /\
    closes c = 0 /\ closes c <> 1.
Proof. do 2 eexists. repeat split; try reflexivity. simpl. discriminate. Qed.

(** The same happens when the call setting up the tunnel raises. *)
Example close_not_called_when_set_tunnel_raises :
  option_map closes
    (out_conn (perform_request Sample.user_agent
                 (Sample.failing_at 1 Sample.ok_response)
                 (Sample.proxied Sample.windows_client (Some 8080%Z) None None)
                 Sample.get_blob ∅)) = Some 0.
Proof. reflexivity. Qed.

(** C3, amended: for every call to [perform_request] in which
    [get_connection] returns a connection, [close] is called on that
    connection exactly once, as the last call made on it: when a response
    is returned, when HTTPError is raised, and when any call on the
    connection raises and the exception propagates. *)
Theorem close_called_exactly_once ua net self_ req h c :
  get_connection net self_ req = Connected c ->
  exists c',
    out_conn (perform_request ua net self_ req h) = Some c' /\
    closes c' = 1 /\ last (calls c') = Some close_ev.
Proof.
  intros Hc.
  destruct (perform_request_connected ua net _ _ h _ Hc)
    as (r & s & Htry & _ & _ & Hconn & _).
  eexists. split; [exact Hconn|]. simpl. split; [|apply last_snoc].
  destruct (get_connection_fresh _ _ _ _ Hc) as (_ & _ & Hfresh & _).
  rewrite perform_request_try_eq in Htry.
  pose proof (steps_emit_request ua net is_emit (fun _ H => H) req
                {| self := self_; conn := c; heap := h |}) as He.
  destruct (emit_request ua net req _) as [[[]|e] s1]; simpl in He;
    apply emits_calls in He; destruct He as (evs & Hevs & Hcalls); simpl in Hcalls.
  - destruct (read_response_calls net s1) as (evs' & Hs & Hevs').
    rewrite Htry in Hs. simpl in Hs. unfold closes in *. rewrite Hs. simpl.
    rewrite Hcalls, !filter_app, !length_app, Hfresh, (emit_events_no_close _ Hevs).
    destruct Hevs' as [->|[amt ->]]; reflexivity.
  - injection Htry as _ <-. unfold closes in *. cbn [calls with_calls].
    rewrite Hcalls, !filter_app, !length_app, Hfresh, (emit_events_no_close _ Hevs).
    reflexivity.
Qed.

Lemma close_called_exactly_once_witness :
  exists c',
    out_conn (perform_request Sample.user_agent (Sample.failing_at 3 Sample.not_found_response)
                Sample.posix_client Sample.get_blob ∅) = Some c' /\
    closes c' = 1 /\ last (calls c') = Some close_ev.
Proof.
  apply (close_called_exactly_once Sample.user_agent
           (Sample.failing_at 3 Sample.not_found_response)
           Sample.posix_client Sample.get_blob ∅ _ eq_refl).
Defined.

(** ** The outcome of a dispatch *)

Section Outcome.

Context (ua : string) (net : transport).

Lemma filter_read_acquired self_ req c :
  get_connection net self_ req = Connected c -> filter is_read (calls c) = [].
Proof.
  intros Hc. destruct (get_connection_fresh _ _ _ _ Hc) as (_ & _ & _ & _ & Hcalls).
  destruct Hcalls as [->|(hh & p & hd & ->)]; reflexivity.
Qed.

(** Either an exception of the acquisition or of the connection primitive
    propagates, or the response was read in full: the header list object
    holds the lower-cased headers, the body was read by the length policy,
    and the status decides between returning and raising HTTPError. *)
Lemma perform_request_outcome self_ req h :
  let o := perform_request ua net self_ req h in
  let resp := response net in
  let l := fresh (dom h) in
  (exists e, out_result o = Raise e /\
             ((exists msg, e = TypeError msg) \/ is_transport_error e))
  \/
  (out_heap o = <[l := lowercased (resp_headers resp)]> h /\
   respheader (out_self o) = Some l /\
   status (out_self o) = Some (resp_status resp) /\
   message (out_self o) = Some (resp_reason resp) /\
   exists c' respbody,
     out_conn o = Some c' /\
     ((resp_length resp = None /\ respbody = Some (resp_data resp) /\
       filter is_read (calls c') = [read_ev None])
      \/ (exists n, resp_length resp = Some n /\ (0 < n)%Z /\
            respbody = Some (take (Z.to_nat n) (resp_data resp)) /\
            filter is_read (calls c') = [read_ev (Some n)])
      \/ (exists n, resp_length resp = Some n /\ (n <= 0)%Z /\
            respbody = None /\ filter is_read (calls c') = [])) /\
     out_result o =
       if (300 <=? resp_status resp)%Z
       then Raise (HTTPError (Some (resp_status resp)) (Some (resp_reason resp))
                     (Some l) respbody)
       else Return {| r_status := resp_status resp; r_message := resp_reason resp;
                      r_headers := l; r_body := respbody |}).
Proof.
  intros o resp l. subst o.
  destruct (get_connection net self_ req) as [c|e oc] eqn:Hc.
  2:{ left. exists e. unfold perform_request. rewrite Hc. simpl.
      split; [reflexivity|]. eapply get_connection_raises, Hc. }
  destruct (perform_request_connected ua net _ _ h _ Hc)
    as (r & s & Htry & Hself & Hheap & Hconn & Hres).
  rewrite Hself, Hheap, Hconn, Hres. clear Hself Hheap Hconn Hres.
  rewrite perform_request_try_eq in Htry.
  pose proof (steps_emit_request ua net is_emit (fun _ H => H) req
                {| self := self_; conn := c; heap := h |}) as He.
  pose proof (raises_emit_request ua net is_transport_error
                (fun _ msg _ => ex_intro _ msg eq_refl) req
                {| self := self_; conn := c; heap := h |}) as Hr.
  destruct (emit_request ua net req _) as [[[]|e] s1]; simpl in He, Hr.
  2:{ left. injection Htry as <- <-.
      destruct (fault net (_ ++ [close_ev])) as [msg|]; eexists; split; try reflexivity; right;
        [now exists msg | now apply Hr]. }
  clear Hr. destruct He as (Hs1 & Hh1 & evs & buf & lines & Hevs & Hc1).
  rewrite read_response_cases in Htry. cbv zeta in Htry.
  rewrite Hh1, Hs1 in Htry. simpl in Hh1, Hs1. fold l resp in Htry.
  assert (Hreads : filter is_read (calls (conn s1)) = []).
  { rewrite Hc1. simpl. rewrite filter_app, (filter_read_acquired _ _ _ Hc).
    now rewrite (emit_events_no_read _ Hevs). }
  destruct (fault net (calls (with_calls (calls (conn s1) ++ [getresponse_ev]) (conn s1))))
    as [msg|] eqn:Hg.
  { left. injection Htry as <- <-.
    destruct (fault net (_ ++ [close_ev])) as [msg'|]; eexists; split; try reflexivity; right;
      [now exists msg' | now exists msg]. }
  destruct (resp_length resp) as [n|] eqn:Hlen.
  - destruct (0 <? n)%Z eqn:Hn.
    + destruct (fault net (calls (with_calls _ _))) as [msg|] eqn:Hrd in Htry.
      { left. injection Htry as <- <-.
        destruct (fault net (_ ++ [close_ev])) as [msg'|]; eexists; split; try reflexivity; right;
          [now exists msg' | now exists msg]. }
      injection Htry as <- <-. simpl.
      destruct (fault net (_ ++ [close_ev])) as [msg'|] eqn:Hcl.
      { left. eexists; split; [reflexivity|]. right. now exists msg'. }
      right. repeat split. do 2 eexists. split; [reflexivity|]. split; [|reflexivity].
      right. left. exists n. repeat split; [lia|]. simpl.
      rewrite !filter_app, Hreads. reflexivity.
    + injection Htry as <- <-. simpl.
      destruct (fault net (_ ++ [close_ev])) as [msg'|] eqn:Hcl.
      { left. eexists; split; [reflexivity|]. right. now exists msg'. }
      right. repeat split. do 2 eexists. split; [reflexivity|]. split; [|reflexivity].
      right. right. exists n. repeat split; [lia|]. simpl.
      rewrite !filter_app, Hreads. reflexivity.
  - destruct (fault net (calls (with_calls _ _))) as [msg|] eqn:Hrd in Htry.
    { left. injection Htry as <- <-.
      destruct (fault net (_ ++ [close_ev])) as [msg'|]; eexists; split; try reflexivity; right;
        [now exists msg' | now exists msg]. }
    injection Htry as <- <-. simpl.
    destruct (fault net (_ ++ [close_ev])) as [msg'|] eqn:Hcl.
    { left. eexists; split; [reflexivity|]. right. now exists msg'. }
    right. repeat split. do 2 eexists. split; [reflexivity|]. split; [|reflexivity].
    left. repeat split. simpl.
    rewrite !filter_app, Hreads. reflexivity.
Qed.

End Outcome.

(** ** Header names *)

(** C2: whenever [perform_request] returns a response, the header list of
    that response is the list received on the wire with every name
    lower-cased (order and values unchanged), so none of its names holds an
    upper-case letter, whatever the casing on the wire was. *)
Theorem returned_header_names_are_lowercase ua net self_ req h resp :
  out_result (perform_request ua net self_ req h) = Return resp ->
  exists hs,
    out_heap (perform_request ua net self_ req h) !! r_headers resp = Some hs /\
    hs = lowercased (resp_headers (response net)) /\
    Forall (fun nv : string * string => PyStr.no_upper nv.1 = true) hs.
Proof.
  intros Hret.
  destruct (perform_request_outcome ua net self_ req h)
    as [(e & He & _)|(Hheap & _ & _ & _ & c' & respbody & _ & _ & Hres)].
  { congruence. }
  rewrite Hret in Hres. destruct (300 <=? _)%Z; [discriminate|].
  injection Hres as ->. simpl. eexists. split; [|split; [reflexivity|]].
  - rewrite Hheap. apply lookup_insert_eq.
  - apply lowercased_no_upper.
Qed.

Lemma returned_header_names_are_lowercase_witness :
  exists hs,
    out_heap (perform_request Sample.user_agent (Sample.serving Sample.ok_response)
                Sample.posix_client Sample.get_blob ∅) !! 0 = Some hs /\
    hs = lowercased [("Content-Length", "13")] /\
    Forall (fun nv : string * string => PyStr.no_upper nv.1 = true) hs.
Proof.
  apply (returned_header_names_are_lowercase Sample.user_agent
           (Sample.serving Sample.ok_response) Sample.posix_client Sample.get_blob ∅
           {| r_status := 200; r_message := "OK"; r_headers := 0;
              r_body := Some (list_byte_of_string "hello world!!") |}).
  vm_compute. reflexivity.
Defined.

(** C9: whenever [perform_request] raises HTTPError, the headers the error
    carries are the list object the client's [respheader] attribute refers
    to, the one the response value was built with; it was normalised in
    place, so it holds the wire headers with every name lower-cased. *)
Theorem error_header_names_are_lowercase ua net self_ req h st msg rh respbody :
  out_result (perform_request ua net self_ req h) = Raise (HTTPError st msg rh respbody) ->
  exists l hs,
    rh = Some l /\
    respheader (out_self (perform_request ua net self_ req h)) = Some l /\
    out_heap (perform_request ua net self_ req h) !! l = Some hs /\
    hs = lowercased (resp_headers (response net)) /\
    Forall (fun nv : string * string => PyStr.no_upper nv.1 = true) hs.
Proof.
  intros Hraise.
  destruct (perform_request_outcome ua net self_ req h)
    as [(e & He & Hkind)|(Hheap & Hrh & _ & _ & c' & body' & _ & _ & Hres)].
  { rewrite Hraise in He. injection He as <-.
    destruct Hkind as [[m [=]]|[m [=]]]. }
  rewrite Hraise in Hres. destruct (300 <=? _)%Z; [|discriminate].
  injection Hres as -> -> -> ->. do 2 eexists. split; [reflexivity|].
  split; [exact Hrh|]. split; [|split; [reflexivity|]].
  - rewrite Hheap. apply lookup_insert_eq.
  - apply lowercased_no_upper.
Qed.

Lemma error_header_names_are_lowercase_witness :
  exists l hs,
    Some 0 = Some l /\
    respheader (out_self (perform_request Sample.user_agent
                            (Sample.serving Sample.not_found_response)
                            Sample.posix_client Sample.get_blob ∅)) = Some l /\
    out_heap (perform_request Sample.user_agent
                (Sample.serving Sample.not_found_response)
                Sample.posix_client Sample.get_blob ∅) !! l = Some hs /\
    hs = lowercased [("Content-Length", "9"); ("X-Ms-Request-Id", "42")] /\
    Forall (fun nv : string * string => PyStr.no_upper nv.1 = true) hs.
Proof.
  apply (error_header_names_are_lowercase Sample.user_agent
           (Sample.serving Sample.not_found_response) Sample.posix_client
           Sample.get_blob ∅ (Some 404%Z) (Some "Not Found") (Some 0)
           (Some (list_byte_of_string "not found"))).
  vm_compute. reflexivity.
Defined.

(** ** The body *)

(** C8: whenever [perform_request] returns a response: if the response
    reported a content length of exactly 0 (or any length that is not
    positive), the body of the returned value is [None] and no read was
    made; if the length is unknown, the one read made is a read to
    exhaustion and the body is all the data; if the length is positive,
    the one read made asks for exactly that many bytes and the body is
    what that read gave. *)
Theorem body_is_read_by_length ua net self_ req h resp :
  out_result (perform_request ua net self_ req h) = Return resp ->
  exists c',
    out_conn (perform_request ua net self_ req h) = Some c' /\
    (resp_length (response net) = Some 0%Z ->
       r_body resp = None /\ r_body resp <> Some [] /\ filter is_read (calls c') = []) /\
    (resp_length (response net) = None ->
       r_body resp = Some (resp_data (response net)) /\
       filter is_read (calls c') = [read_ev None]) /\
    (forall n, resp_length (response net) = Some n -> (0 < n)%Z ->
       r_body resp = Some (take (Z.to_nat n) (resp_data (response net))) /\
       filter is_read (calls c') = [read_ev (Some n)]) /\
    (forall n, resp_length (response net) = Some n -> (n <= 0)%Z ->
       r_body resp = None /\ filter is_read (calls c') = []).
Proof.
  intros Hret.
  destruct (perform_request_outcome ua net self_ req h)
    as [(e & He & _)|(_ & _ & _ & _ & c' & respbody & Hconn & Hpol & Hres)].
  { congruence. }
  rewrite Hret in Hres. destruct (300 <=? _)%Z; [discriminate|].
  injection Hres as ->. simpl. exists c'. split; [exact Hconn|].
  destruct Hpol as [(Hlen & -> & Hrd)|[(n & Hlen & Hn & -> & Hrd)|(n & Hlen & Hn & -> & Hrd)]];
    rewrite Hlen; repeat split; intros; simplify_eq; auto; try lia; try discriminate.
Qed.

Lemma body_is_read_by_length_witness :
  exists c',
    out_conn (perform_request Sample.user_agent (Sample.serving Sample.empty_response)
                Sample.posix_client Sample.get_blob ∅) = Some c' /\
    filter is_read (calls c') = [].
Proof.
  destruct (body_is_read_by_length Sample.user_agent
              (Sample.serving Sample.empty_response) Sample.posix_client
              Sample.get_blob ∅
              {| r_status := 201; r_message := "Created"; r_headers := 0;
                 r_body := None |})
    as (c' & Hc & Hzero & _).
  - vm_compute. reflexivity.
  - exists c'. split; [exact Hc|]. apply Hzero. reflexivity.
Defined.

(** ** Returning or raising *)

(** When no call on the connection raises, a dispatch whose connection was
    acquired raises nothing but HTTPError. *)
Lemma perform_request_fault_free ua net self_ req h c e :
  (forall tr, fault net tr = None) ->
  get_connection net self_ req = Connected c ->
  out_result (perform_request ua net self_ req h) = Raise e ->
  exists st msg rh respbody, e = HTTPError st msg rh respbody.
Proof.
  intros Hq Hc.
  destruct (perform_request_connected ua net _ _ h _ Hc)
    as (r & s & Htry & _ & _ & _ & ->).
  rewrite Hq. intros ->.
  rewrite perform_request_try_eq in Htry.
  assert (Hr : raises_only (fun _ => False) (emit_request ua net req)).
  { apply raises_emit_request. intros tr msg Hf. rewrite Hq in Hf. discriminate. }
  specialize (Hr {| self := self_; conn := c; heap := h |}).
  destruct (emit_request ua net req _) as [[[]|e'] s1]; simpl in Hr.
  2:{ destruct (Hr _ eq_refl). }
  rewrite read_response_cases in Htry. cbv zeta in Htry. rewrite !Hq in Htry.
  destruct (resp_length (response net)) as [n|]; [destruct (0 <? n)%Z|];
    destruct (300 <=? _)%Z; rewrite ?Hq in Htry; simplify_eq; eauto.
Qed.

(** The two examples of the specification. *)
Example dispatch_returns_on_200 :
  out_result (perform_request Sample.user_agent (Sample.serving Sample.ok_response)
                Sample.posix_client Sample.get_blob ∅)
    = Return {| r_status := 200; r_message := "OK"; r_headers := 0;
                r_body := Some (list_byte_of_string "hello world!!") |} /\
  out_heap (perform_request Sample.user_agent (Sample.serving Sample.ok_response)
              Sample.posix_client Sample.get_blob ∅) !! 0
    = Some [("content-length", "13")].
Proof. split; vm_compute; reflexivity. Qed.

Example dispatch_raises_on_404 :
  out_result (perform_request Sample.user_agent (Sample.serving Sample.not_found_response)
                Sample.posix_client Sample.get_blob ∅)
    = Raise (HTTPError (Some 404%Z) (Some "Not Found") (Some 0)
               (Some (list_byte_of_string "not found"))).
Proof. vm_compute. reflexivity. Qed.

(** C1, as stated, fails: the headers of the HTTPError raised for a 404
    response are not the headers of the raw response; their names have
    been lower-cased. *)
Lemma error_headers_differ_from_raw_response :
  exists l respbody,
    out_result (perform_request Sample.user_agent
                  (Sample.serving Sample.not_found_response)
                  Sample.posix_client Sample.get_blob ∅)
      = Raise (HTTPError (Some 404%Z) (Some "Not Found") (Some l) respbody) /\
    out_heap (perform_request Sample.user_agent
                (Sample.serving Sample.not_found_response)
                Sample.posix_client Sample.get_blob ∅) !! l
      = Some [("content-length", "9"); ("x-ms-request-id", "42")] /\
    out_heap (perform_request Sample.user_agent
                (Sample.serving Sample.not_found_response)
                Sample.posix_client Sample.get_blob ∅) !! l
      <> Some (resp_headers Sample.not_found_response).
Proof.
  exists 0, (Some (list_byte_of_string "not found")).
  split; [vm_compute; reflexivity|].
  assert (H : out_heap (perform_request Sample.user_agent
                (Sample.serving Sample.not_found_response)
                Sample.posix_client Sample.get_blob ∅) !! 0
              = Some [("content-length", "9"); ("x-ms-request-id", "42")])
    by (vm_compute; reflexivity).
  split; [exact H|]. intros Hneq.
  pose proof (eq_trans (eq_sym H) Hneq) as Hboth. discriminate Hboth.
Qed.

(** C1, amended: in every dispatch whose connection was acquired and in
    which no call on the connection raises, a response with status >= 300
    makes [perform_request] raise HTTPError with the status code and the
    reason phrase of the raw response, with its headers under lower-cased
    names (order and values unchanged), and with the body read by the
    length policy: all the data when the length is unknown, the first
    [length] bytes when it is positive, and [None] otherwise.  A response
    with status < 300 makes it return a response value with the same four
    components instead of raising. *)
Theorem status_decides_between_return_and_error ua net self_ req h c :
  (forall tr, fault net tr = None) ->
  get_connection net self_ req = Connected c ->
  let resp := response net in
  let respbody :=
    match resp_length resp with
    | None => Some (resp_data resp)
    | Some n => if (0 <? n)%Z then Some (take (Z.to_nat n) (resp_data resp)) else None
    end in
  exists l,
    out_heap (perform_request ua net self_ req h) !! l
      = Some (lowercased (resp_headers resp)) /\
    ((300 <= resp_status resp)%Z ->
       out_result (perform_request ua net self_ req h)
         = Raise (HTTPError (Some (resp_status resp)) (Some (resp_reason resp))
                    (Some l) respbody)) /\
    ((resp_status resp < 300)%Z ->
       out_result (perform_request ua net self_ req h)
         = Return {| r_status := resp_status resp; r_message := resp_reason resp;
                     r_headers := l; r_body := respbody |}).
Proof.
  intros Hq Hc resp respbody.
  destruct (perform_request_outcome ua net self_ req h)
    as [(e & He & Hkind)|(Hheap & _ & _ & _ & c' & body' & _ & Hpol & Hres)].
  { destruct (perform_request_fault_free _ _ _ _ _ _ _ Hq Hc He)
      as (st & msg & rh & b & ->).
    destruct Hkind as [[m [=]]|[m [=]]]. }
  exists (fresh (dom h)). split; [rewrite Hheap; apply lookup_insert_eq|].
  assert (Hbody : body' = respbody).
  { subst respbody. fold resp in Hpol.
    destruct Hpol as [(-> & -> & _)|[(n & -> & Hn & -> & _)|(n & -> & Hn & -> & _)]].
    - reflexivity.
    - now apply Z.ltb_lt in Hn as ->.
    - now apply Z.ltb_ge in Hn as ->. }
  rewrite Hres, Hbody. fold resp.
  split; intros Hst.
  - now apply Z.leb_le in Hst as ->.
  - apply Z.leb_gt in Hst. now rewrite Hst.
Qed.

Lemma status_decides_between_return_and_error_witness :
  exists l,
    out_heap (perform_request Sample.user_agent (Sample.serving Sample.ok_response)
                Sample.posix_client Sample.get_blob ∅) !! l
      = Some (lowercased [("Content-Length", "13")]) /\
    out_result (perform_request Sample.user_agent (Sample.serving Sample.ok_response)
                  Sample.posix_client Sample.get_blob ∅)
      = Return {| r_status := 200; r_message := "OK"; r_headers := l;
                  r_body := Some (list_byte_of_string "hello world!!") |}.
Proof.
  destruct (status_decides_between_return_and_error Sample.user_agent
              (Sample.serving Sample.ok_response) Sample.posix_client
              Sample.get_blob ∅ _ (fun _ => eq_refl) eq_refl)
    as (l & Hheap & _ & Hret).
  exists l. split; [exact Hheap|]. apply Hret. reflexivity.
Defined.

(** ** The Host header *)

Lemma for_in_done {A} (live : state -> list A) body fuel idx s :
  live s !! idx = None -> for_in fuel idx live body s = (Return tt, s).
Proof. intros H. destruct fuel; simpl; now rewrite H. Qed.


Lemma with_buffer_same s (buf : list string) :
  _buffer (conn s) = buf ->
  {| self := self s; conn := with_buffer buf (conn s); heap := heap s |} = s.
Proof. destruct s as [sf [] hp]; simpl. now intros <-. Qed.



(** The slip in that loop: of two neighbouring Host lines, the second is
    stepped over and stays in the buffer. *)
Example strip_host_lines_steps_over_a_neighbour :
  _buffer (conn (strip_host_lines
     {| self := Sample.posix_client;
        conn := with_buffer ["Host: a"; "Host: b"; "Accept-Encoding: identity"]
                  (new_connection HTTPSConnection (Some "proxy.local") (Some 8080%Z)
                     None None);
        heap := ∅ |}).2)
  = ["Host: b"; "Accept-Encoding: identity"].
Proof. reflexivity. Qed.

Section Quiet.

Context (ua : string) (net : transport) (Hq : forall tr, fault net tr = None).

Lemma call_quiet ev eff s :
  call net ev eff s =
  (Return tt, {| self := self s;
                 conn := eff (with_calls (calls (conn s) ++ [ev]) (conn s));
                 heap := heap s |}).
Proof. rewrite call_eq. simpl. now rewrite Hq. Qed.

Lemma putheader_quiet name value s :
  putheader net name value s =
  (Return tt,
   {| self := self s;
      conn := with_buffer (_buffer (conn s) ++ [name +:+ ": " +:+ value])
                (with_calls (calls (conn s) ++ [putheader_ev name value]) (conn s));
      heap := heap s |}).
Proof. unfold putheader. now rewrite call_quiet. Qed.

Lemma put_request_header_quiet nv s :
  put_request_header net nv s =
  (Return tt,
   if truthy nv.2 then
     {| self := self s;
        conn := with_buffer (_buffer (conn s) ++ [nv.1 +:+ ": " +:+ default "" nv.2])
                  (with_calls (calls (conn s) ++ [putheader_ev nv.1 (default "" nv.2)])
                     (conn s));
        heap := heap s |}
   else s).
Proof.
  unfold put_request_header. destruct (truthy nv.2); [|reflexivity].
  unfold putheader. now rewrite call_quiet.
Qed.



End Quiet.

Section Tunnel.

Context (ua : string) (net : transport) (Hq : forall tr, fault net tr = None).



End Tunnel.




(** ** Totality of the model *)

(** No dispatch runs a loop of the model out of fuel, and none finds
    [list.remove] without its element: what is raised is an exception of
    the acquisition, of the connection primitive, or HTTPError. *)
Lemma perform_request_never_exhausts ua net self_ req h :
  out_result (perform_request ua net self_ req h) <> Raise FuelExhausted /\
  forall msg, out_result (perform_request ua net self_ req h) <> Raise (ValueError msg).
Proof.
  destruct (perform_request_outcome ua net self_ req h)
    as [(e & -> & [[m ->]|[m ->]])|(_ & _ & _ & _ & c' & b & _ & _ & ->)];
    try (split; [|intros msg]; discriminate).
  destruct (300 <=? _)%Z; (split; [|intros msg]; discriminate).
Qed.

(** * Further properties of the client *)

(** ** The loop over the buffered lines, on any buffer *)

Lemma list_remove_host_line (l l' : list string) x :
  is_host_line x = true ->
  list_remove x l = Some l' ->
  without_host_lines l' = without_host_lines l.
Proof.
  intros Hx. revert l'. induction l as [|y l IH]; intros l' Hl; [discriminate|].
  simpl in Hl. destruct (String.eqb x y) eqn:Hxy.
  - apply String.eqb_eq in Hxy as <-. injection Hl as <-.
    unfold without_host_lines. simpl. now rewrite Hx.
  - destruct (list_remove x l) as [l''|]; [|discriminate]. injection Hl as <-.
    unfold without_host_lines in *. simpl. now rewrite (IH _ eq_refl).
Qed.

Lemma strip_host_line_eq x s :
  strip_host_line x s =
  if is_host_line x then
    match list_remove x (_buffer (conn s)) with
    | Some buf =>
        (Return tt, {| self := self s; conn := with_buffer buf (conn s); heap := heap s |})
    | None => (Raise (ValueError "list.remove(x): x not in list"), s)
    end
  else (Return tt, s).
Proof.
  unfold strip_host_line. change (PyStr.startswith x "Host: ") with (is_host_line x).
  destruct (is_host_line x); [|reflexivity].
  rewrite bind_eq, get_conn_eq. cbv beta iota. now destruct (list_remove _ _).
Qed.

Lemma strip_loop_any fuel : forall idx s,
  length (_buffer (conn s)) <= idx + fuel ->
  exists buf,
    for_in fuel idx (fun s => _buffer (conn s)) (fun _ i => strip_host_line i) s
    = (Return tt, {| self := self s; conn := with_buffer buf (conn s); heap := heap s |}) /\
    without_host_lines buf = without_host_lines (_buffer (conn s)) /\
    length buf <= length (_buffer (conn s)).
Proof.
  induction fuel as [|fuel IH]; intros idx s Hlen.
  - exists (_buffer (conn s)).
    rewrite for_in_done by (apply lookup_ge_None_2; lia).
    now rewrite with_buffer_same.
  - destruct (_buffer (conn s) !! idx) as [x|] eqn:Hx.
    2:{ exists (_buffer (conn s)). rewrite for_in_done by exact Hx.
        now rewrite with_buffer_same. }
    simpl for_in. rewrite Hx, bind_eq, strip_host_line_eq.
    destruct (is_host_line x) eqn:Hhost.
    + destruct (list_remove_lookup _ _ _ Hx) as (l' & Hl' & Hlen').
      rewrite Hl'. cbv beta iota.
      destruct (IH (S idx) {| self := self s; conn := with_buffer l' (conn s);
                              heap := heap s |}) as (buf & Hrun & Hkeep & Hle).
      { simpl. lia. }
      exists buf. rewrite Hrun. simpl in *. split; [reflexivity|]. split.
      * rewrite Hkeep. now apply (list_remove_host_line _ _ x).
      * lia.
    + cbv beta iota.
      destruct (IH (S idx) s) as (buf & Hrun & Hkeep & Hle); [lia|].
      exists buf. now rewrite Hrun.
Qed.

(** X1: on every buffer, the loop of lines 112-114 ends normally and
    touches nothing but the buffer; the lines that are no Host lines all
    stay, in their order, and no line is added. *)
Theorem strip_host_lines_keeps_other_lines (s : state) :
  exists buf,
    strip_host_lines s =
      (Return tt, {| self := self s; conn := with_buffer buf (conn s); heap := heap s |}) /\
    without_host_lines buf = without_host_lines (_buffer (conn s)) /\
    length buf <= length (_buffer (conn s)).
Proof. unfold strip_host_lines, py_for. apply strip_loop_any. lia. Qed.

(** ** The calls of a dispatch in which nothing raises *)

Section Trace.

Context (ua : string) (net : transport) (Hq : forall tr, fault net tr = None).

Lemma put_headers_calls (all : list (string * option string)) hs :
  forall done fuel s,
    all = done ++ hs ->
    length hs <= fuel ->
    for_in fuel (length done) (fun _ => all) (fun _ nv => put_request_header net nv) s
    = (Return tt,
       {| self := self s;
          conn := with_buffer (_buffer (conn s) ++ header_lines hs)
                    (with_calls (calls (conn s) ++ header_calls hs) (conn s));
          heap := heap s |}).
Proof.
  induction hs as [|nv hs IH]; intros done fuel s Hall Hlen.
  - rewrite for_in_done
      by (rewrite Hall; apply lookup_ge_None_2; rewrite length_app; simpl; lia).
    simpl. rewrite !app_nil_r. now destruct s as [sf [] hp].
  - destruct fuel as [|fuel]; [simpl in Hlen; lia|].
    assert (Hnv : all !! length done = Some nv)
      by (rewrite Hall; now apply list_lookup_middle).
    simpl for_in. rewrite Hnv.
    rewrite bind_eq, (put_request_header_quiet net Hq). cbv beta iota.
    replace (S (length done)) with (length (done ++ [nv]))
      by (rewrite length_app; simpl; lia).
    rewrite (IH (done ++ [nv]) fuel)
      by (first [now rewrite Hall, <- app_assoc | simpl in Hlen; lia]).
    unfold header_lines, header_calls. simpl.
    destruct (truthy nv.2) eqn:Hv; [|reflexivity].
    cbn [self conn heap map]. autorewrite with conn.
    now rewrite <- !app_assoc.
Qed.

(** [send_request_headers], call by call: through a tunnel the buffered
    lines lose Host lines and the Host header of the tunnel is put; in any
    case the request headers that have a value follow in their order, then
    User-Agent, and the buffer is sent. *)
Lemma send_request_headers_trace hs s :
  let tun := use_httplib (self s) && truthy (proxy_host (self s)) in
  let v := PyStr.str_of (_tunnel_host (conn s)) +:+ ":" +:+
           PyStr.str_of_int (_tunnel_port (conn s)) in
  exists buf,
    (if tun then without_host_lines buf = without_host_lines (_buffer (conn s))
     else buf = _buffer (conn s)) /\
    send_request_headers ua net hs s =
    (Return tt,
     {| self := self s;
        conn := with_buffer []
                  (with_sent
                     (sent (conn s) ++ buf ++
                      (if tun then ["Host: " +:+ v] else []) ++
                      header_lines hs ++ ["User-Agent: " +:+ ua])
                     (with_calls
                        (calls (conn s) ++
                         (if tun then [putheader_ev "Host" v] else []) ++
                         header_calls hs ++
                         [putheader_ev "User-Agent" ua; endheaders_ev])
                        (conn s)));
        heap := heap s |}).
Proof.
  intros tun v. subst tun. unfold send_request_headers.
  rewrite bind_eq, get_self_eq. cbv beta iota.
  destruct (use_httplib (self s) && truthy (proxy_host (self s))) eqn:Htun.
  - apply andb_prop in Htun as [-> ->].
    destruct (strip_loop_any (length (_buffer (conn s))) 0 s (le_n _))
      as (buf & Hstrip & Hkeep & _).
    exists buf. split; [exact Hkeep|].
    rewrite bind_eq, bind_eq. unfold strip_host_lines, py_for.
    rewrite Hstrip. cbv beta iota.
    rewrite bind_eq, get_conn_eq. cbv beta iota.
    rewrite (putheader_quiet net Hq). cbv beta iota.
    rewrite bind_eq. unfold py_for. cbv beta.
    rewrite (put_headers_calls hs hs [] (length hs) _ eq_refl (le_n _)).
    cbv beta iota. rewrite bind_eq, (putheader_quiet net Hq). cbv beta iota.
    unfold endheaders. rewrite (call_quiet net Hq).
    cbn [self conn heap]. autorewrite with conn. fold v.
    now rewrite <- !app_assoc.
  - exists (_buffer (conn s)). split; [reflexivity|].
    assert (Hskip : (if use_httplib (self s)
                     then if truthy (proxy_host (self s))
                          then strip_host_lines;;
                               c ← get_conn;
                               putheader net "Host"
                                 (PyStr.str_of (_tunnel_host c) +:+ ":" +:+
                                  PyStr.str_of_int (_tunnel_port c))
                          else mret tt
                     else mret tt) s = (Return tt, s)).
    { destruct (use_httplib (self s)); [|reflexivity].
      simpl in Htun. now rewrite Htun. }
    rewrite bind_eq, Hskip. cbv beta iota.
    rewrite bind_eq. unfold py_for. cbv beta.
    rewrite (put_headers_calls hs hs [] (length hs) _ eq_refl (le_n _)).
    cbv beta iota. rewrite bind_eq, (putheader_quiet net Hq). cbv beta iota.
    unfold endheaders. rewrite (call_quiet net Hq).
    cbn [self conn heap app]. autorewrite with conn.
    now rewrite <- !app_assoc.
Qed.

End Trace.

Lemma with_calls_nil c : with_calls (calls c ++ []) c = c.
Proof. rewrite app_nil_r. now destruct c. Qed.

Section DispatchTrace.

Context (ua : string) (net : transport) (Hq : forall tr, fault net tr = None).

Lemma set_proxy_credentials_trace (self_ : _HTTPClient) s :
  (if negb (use_httplib self_) then
     if truthy (proxy_host self_) && truthy (proxy_user self_) then
       set_proxy_credentials net (proxy_user self_) (proxy_password self_)
     else mret tt
   else mret tt) s =
  (Return tt,
   {| self := self s;
      conn := with_calls
                (calls (conn s) ++
                 (if negb (use_httplib self_) &&
                     (truthy (proxy_host self_) && truthy (proxy_user self_))
                  then [set_proxy_credentials_ev (proxy_user self_) (proxy_password self_)]
                  else [])) (conn s);
      heap := heap s |}).
Proof.
  destruct (negb (use_httplib self_)); simpl.
  - destruct (truthy (proxy_host self_) && truthy (proxy_user self_)).
    + unfold set_proxy_credentials. now rewrite (call_quiet net Hq).
    + rewrite ret_eq, with_calls_nil. now rewrite state_eta.
  - rewrite ret_eq, with_calls_nil. now rewrite state_eta.
Qed.

Lemma send_request_body_trace b s :
  send_request_body net b s =
  (Return tt,
   {| self := self s;
      conn := with_calls
                (calls (conn s) ++
                 (if truthy b then [send_ev b]
                  else if is_standard (conn_class_of (conn s)) then []
                       else [send_ev None])) (conn s);
      heap := heap s |}).
Proof.
  unfold send_request_body. destruct (truthy b).
  - unfold send. now rewrite (call_quiet net Hq).
  - rewrite bind_eq, get_conn_eq. cbv beta iota.
    destruct (is_standard (conn_class_of (conn s))); simpl.
    + rewrite ret_eq, with_calls_nil. now rewrite state_eta.
    + unfold send. now rewrite (call_quiet net Hq).
Qed.

Lemma emit_request_trace self_ req h c :
  _buffer c = [] ->
  let tun := use_httplib self_ && truthy (proxy_host self_) in
  let v := PyStr.str_of (_tunnel_host c) +:+ ":" +:+ PyStr.str_of_int (_tunnel_port c) in
  exists buf,
    (if tun then without_host_lines buf = without_host_lines (buffered net c req)
     else buf = buffered net c req) /\
    emit_request ua net req {| self := self_; conn := c; heap := h |} =
    (Return tt,
     {| self := self_;
        conn := with_buffer []
                  (with_sent
                     (sent c ++ buf ++
                      (if tun then ["Host: " +:+ v] else []) ++
                      header_lines (headers req) ++ ["User-Agent: " +:+ ua])
                     (with_calls
                        (calls c ++
                         [putrequest_ev (method req) (path req)] ++
                         (if negb (use_httplib self_) &&
                             (truthy (proxy_host self_) && truthy (proxy_user self_))
                          then [set_proxy_credentials_ev (proxy_user self_)
                                  (proxy_password self_)]
                          else []) ++
                         (if tun then [putheader_ev "Host" v] else []) ++
                         header_calls (headers req) ++
                         [putheader_ev "User-Agent" ua; endheaders_ev] ++
                         (if truthy (body req) then [send_ev (body req)]
                          else if is_standard (conn_class_of c) then []
                               else [send_ev None]))
                        c));
        heap := h |}).
Proof.
  intros Hbuf tun v. unfold emit_request.
  rewrite bind_eq. unfold putrequest. rewrite (call_quiet net Hq). cbv beta iota.
  rewrite bind_eq, get_self_eq. cbv beta iota. cbn [self].
  rewrite bind_eq, set_proxy_credentials_trace. cbv beta iota.
  rewrite bind_eq.
  match goal with
  | |- context [send_request_headers ua net _ ?s2] =>
      destruct (send_request_headers_trace ua net Hq (headers req) s2)
        as (buf & Hkeep & Hrun)
  end.
  rewrite Hrun. clear Hrun. cbv beta iota. rewrite send_request_body_trace.
  cbn [self conn heap] in *. autorewrite with conn in *.
  rewrite Hbuf in *. cbn [app] in *.
  exists buf. split; [exact Hkeep|].
  fold tun v. now rewrite <- !app_assoc.
Qed.

End DispatchTrace.

Section DispatchCalls.

Context (ua : string) (net : transport) (Hq : forall tr, fault net tr = None).

(** The connection after a dispatch in which nothing raises. *)
Lemma dispatch_connection self_ req h c :
  get_connection net self_ req = Connected c ->
  let tun := use_httplib self_ && truthy (proxy_host self_) in
  let v := PyStr.str_of (_tunnel_host c) +:+ ":" +:+ PyStr.str_of_int (_tunnel_port c) in
  exists buf,
    (if tun then without_host_lines buf = without_host_lines (buffered net c req)
     else buf = buffered net c req) /\
    out_conn (perform_request ua net self_ req h) =
    Some (with_buffer []
            (with_sent
               (buf ++ (if tun then ["Host: " +:+ v] else []) ++
                header_lines (headers req) ++ ["User-Agent: " +:+ ua])
               (with_calls
                  (calls c ++
                   [putrequest_ev (method req) (path req)] ++
                   (if negb (use_httplib self_) &&
                       (truthy (proxy_host self_) && truthy (proxy_user self_))
                    then [set_proxy_credentials_ev (proxy_user self_)
                            (proxy_password self_)]
                    else []) ++
                   (if tun then [putheader_ev "Host" v] else []) ++
                   header_calls (headers req) ++
                   [putheader_ev "User-Agent" ua; endheaders_ev] ++
                   (if truthy (body req) then [send_ev (body req)]
                    else if use_httplib self_ then [] else [send_ev None]) ++
                   [getresponse_ev] ++
                   match resp_length (response net) with
                   | None => [read_ev None]
                   | Some n => if (0 <? n)%Z then [read_ev (Some n)] else []
                   end ++
                   [close_ev])
                  c))).
Proof.
  intros Hc tun v.
  destruct (perform_request_connected ua net _ _ h _ Hc)
    as (r & s & Htry & _ & _ & Hconn & _).
  destruct (get_connection_fresh _ _ _ _ Hc) as (Hbuf & Hsent & _ & Hstd & _).
  rewrite perform_request_try_eq in Htry.
  destruct (emit_request_trace ua net Hq self_ req h c Hbuf) as (buf & Hkeep & He).
  rewrite He in Htry. clear He.
  rewrite read_response_cases in Htry. cbv zeta in Htry. rewrite Hq in Htry.
  exists buf. split; [exact Hkeep|]. rewrite Hconn. clear Hconn. f_equal.
  rewrite Hstd, Hsent in Htry. cbn [app] in Htry.
  destruct (resp_length (response net)) as [n|]; [destruct (0 <? n)%Z|];
    rewrite ?Hq in Htry; injection Htry as _ <-;
    cbn [self conn heap]; autorewrite with conn; fold tun v;
    rewrite <- ?app_assoc; cbn [app]; rewrite <- ?app_assoc; reflexivity.
Qed.

End DispatchCalls.

(** X2: in a dispatch in which nothing raises, the calls made on the
    acquired connection are, in this order: the request line; on the
    alternate connection with a proxy host and a proxy user, the proxy
    credentials (whatever the password is); through a tunnel on the
    standard path, the Host header of the tunnel target; the request
    headers that have a value, in their order; User-Agent; the end of the
    headers; the body if there is one, or the empty send on the alternate
    connection; the response; the read the length asks for; close. *)
Theorem dispatch_calls ua net self_ req h c :
  (forall tr, fault net tr = None) ->
  get_connection net self_ req = Connected c ->
  exists c',
    out_conn (perform_request ua net self_ req h) = Some c' /\
    calls c' =
      calls c ++
      [putrequest_ev (method req) (path req)] ++
      (if negb (use_httplib self_) &&
          (truthy (proxy_host self_) && truthy (proxy_user self_))
       then [set_proxy_credentials_ev (proxy_user self_) (proxy_password self_)]
       else []) ++
      (if use_httplib self_ && truthy (proxy_host self_)
       then [putheader_ev "Host"
               (host req +:+ ":" +:+ pretty (default_port (effective_protocol self_ req)))]
       else []) ++
      header_calls (headers req) ++
      [putheader_ev "User-Agent" ua; endheaders_ev] ++
      (if truthy (body req) then [send_ev (body req)]
       else if use_httplib self_ then [] else [send_ev None]) ++
      [getresponse_ev] ++
      match resp_length (response net) with
      | None => [read_ev None]
      | Some n => if (0 <? n)%Z then [read_ev (Some n)] else []
      end ++
      [close_ev].
Proof.
  intros Hq Hc.
  destruct (dispatch_connection ua net Hq self_ req h c Hc) as (buf & _ & ->).
  eexists. split; [reflexivity|]. autorewrite with conn.
  destruct (use_httplib self_ && truthy (proxy_host self_)) eqn:Htun; [|reflexivity].
  apply andb_prop in Htun as [Hu Hp].
  destruct (get_connection_tunnel _ _ _ _ Hu Hp Hc) as (-> & ->). reflexivity.
Qed.

Lemma dispatch_calls_witness :
  exists c',
    out_conn (perform_request Sample.user_agent (Sample.serving Sample.ok_response)
                Sample.posix_client Sample.get_blob ∅) = Some c' /\
    calls c' = [putrequest_ev "GET" "/blob"; putheader_ev "x-ms-version" "2021-08-06";
                putheader_ev "User-Agent" "pyazure"; endheaders_ev; getresponse_ev;
                read_ev (Some 13%Z); close_ev].
Proof.
  apply (dispatch_calls Sample.user_agent (Sample.serving Sample.ok_response)
           Sample.posix_client Sample.get_blob ∅ _ (fun _ => eq_refl) eq_refl).
Defined.

(** X3: in a dispatch in which nothing raises and that does not go through
    a tunnel of the standard path (no proxy host, or the alternate
    connection), no buffered line is removed, a Host line included: the
    header lines sent are the lines the connection buffered for the request
    line, then the request headers that have a value, then User-Agent. *)
Theorem direct_dispatch_sends_buffered_lines ua net self_ req h c :
  (forall tr, fault net tr = None) ->
  get_connection net self_ req = Connected c ->
  use_httplib self_ && truthy (proxy_host self_) = false ->
  exists c',
    out_conn (perform_request ua net self_ req h) = Some c' /\
    _buffer c' = [] /\
    sent c' = buffered net c req ++ header_lines (headers req) ++ ["User-Agent: " +:+ ua].
Proof.
  intros Hq Hc Htun.
  destruct (dispatch_connection ua net Hq self_ req h c Hc) as (buf & Hkeep & ->).
  rewrite Htun in *. subst buf.
  eexists. split; [reflexivity|]. now autorewrite with conn.
Qed.

Lemma direct_dispatch_sends_buffered_lines_witness :
  exists c',
    out_conn (perform_request Sample.user_agent (Sample.serving Sample.ok_response)
                Sample.posix_client Sample.get_blob ∅) = Some c' /\
    _buffer c' = [] /\
    sent c' = ["GET /blob HTTP/1.1"; "Host: example.blob.core.windows.net";
               "Accept-Encoding: identity"; "x-ms-version: 2021-08-06";
               "User-Agent: pyazure"].
Proof.
  apply (direct_dispatch_sends_buffered_lines Sample.user_agent
           (Sample.serving Sample.ok_response) Sample.posix_client Sample.get_blob ∅ _
           (fun _ => eq_refl) eq_refl eq_refl).
Defined.

(** ** What a dispatch leaves in the client and in the store *)

Section Leaves.

Context (ua : string) (net : transport).

(** Either the dispatch failed before the response headers were at hand,
    and client and store are as before; or the three attributes of the last
    response are set and one list object, the header list, is new. *)
Lemma perform_request_leaves self_ req h :
  let o := perform_request ua net self_ req h in
  let resp := response net in
  let l := fresh (dom h) in
  (out_self o = self_ /\ out_heap o = h /\
   exists e, out_result o = Raise e /\
             ((exists msg, e = TypeError msg) \/ is_transport_error e))
  \/
  (out_self o =
     with_respheader (Some l)
       (with_message (Some (resp_reason resp))
          (with_status (Some (resp_status resp)) self_)) /\
   out_heap o = <[l := lowercased (resp_headers resp)]> h).
Proof.
  intros o resp l. subst o.
  destruct (get_connection net self_ req) as [c|e oc] eqn:Hc.
  2:{ left. unfold perform_request. rewrite Hc. simpl. repeat split.
      exists e. split; [reflexivity|]. eapply get_connection_raises, Hc. }
  destruct (perform_request_connected ua net _ _ h _ Hc)
    as (r & s & Htry & -> & -> & _ & ->).
  rewrite perform_request_try_eq in Htry.
  pose proof (steps_emit_request ua net is_emit (fun _ H => H) req
                {| self := self_; conn := c; heap := h |}) as He.
  pose proof (raises_emit_request ua net is_transport_error
                (fun _ msg _ => ex_intro _ msg eq_refl) req
                {| self := self_; conn := c; heap := h |}) as Hr.
  destruct (emit_request ua net req _) as [[[]|e] s1]; simpl in He, Hr.
  2:{ left. injection Htry as <- <-. destruct He as (-> & -> & _).
      repeat split.
      destruct (fault net (_ ++ [close_ev])) as [msg|]; eexists;
        (split; [reflexivity|]); right; [now exists msg | now apply Hr]. }
  clear Hr. destruct He as (Hs1 & Hh1 & _). simpl in Hs1, Hh1.
  rewrite read_response_cases in Htry. cbv zeta in Htry.
  rewrite Hh1, Hs1 in Htry. fold l resp in Htry.
  destruct (fault net (calls (with_calls (calls (conn s1) ++ [getresponse_ev]) (conn s1))))
    as [msg|] eqn:Hg.
  { left. injection Htry as <- <-. simpl. repeat split.
    destruct (fault net (_ ++ [close_ev])) as [msg'|]; eexists;
      (split; [reflexivity|]); right; [now exists msg' | now exists msg]. }
  right.
  destruct (resp_length resp) as [n|]; [destruct (0 <? n)%Z|];
    try destruct (fault net (calls (with_calls _ _))) in Htry;
    injection Htry as _ <-; now split.
Qed.

End Leaves.

(** X4: no dispatch, however it ends, changes the configuration of the
    client: the service instance, the certificate file, the account and
    namespace attributes, the protocol, the four proxy attributes and the
    choice of connection implementation are as before. *)
Theorem perform_request_keeps_configuration ua net self_ req h :
  service_instance (out_self (perform_request ua net self_ req h)) = service_instance self_ /\
  cert_file (out_self (perform_request ua net self_ req h)) = cert_file self_ /\
  account_name (out_self (perform_request ua net self_ req h)) = account_name self_ /\
  account_key (out_self (perform_request ua net self_ req h)) = account_key self_ /\
  service_namespace (out_self (perform_request ua net self_ req h)) = service_namespace self_ /\
  issuer (out_self (perform_request ua net self_ req h)) = issuer self_ /\
  protocol (out_self (perform_request ua net self_ req h)) = protocol self_ /\
  proxy_host (out_self (perform_request ua net self_ req h)) = proxy_host self_ /\
  proxy_port (out_self (perform_request ua net self_ req h)) = proxy_port self_ /\
  proxy_user (out_self (perform_request ua net self_ req h)) = proxy_user self_ /\
  proxy_password (out_self (perform_request ua net self_ req h)) = proxy_password self_ /\
  use_httplib (out_self (perform_request ua net self_ req h)) = use_httplib self_.
Proof.
  destruct (perform_request_leaves ua net self_ req h) as [(-> & _)|(-> & _)];
    now repeat split.
Qed.

(** X5: after a dispatch, the attributes [status], [message] and
    [respheader] of the client are either all as before, and then the store
    is as before too and the dispatch raised something other than
    HTTPError; or they hold the status, the reason and the normalised
    header list of the response just received.  So after a returned
    response or an HTTPError they always describe that response. *)
Theorem perform_request_records_the_response ua net self_ req h :
  (status (out_self (perform_request ua net self_ req h)) = status self_ /\
   message (out_self (perform_request ua net self_ req h)) = message self_ /\
   respheader (out_self (perform_request ua net self_ req h)) = respheader self_ /\
   out_heap (perform_request ua net self_ req h) = h /\
   exists e, out_result (perform_request ua net self_ req h) = Raise e /\
             forall st msg rh b, e <> HTTPError st msg rh b)
  \/
  (status (out_self (perform_request ua net self_ req h))
     = Some (resp_status (response net)) /\
   message (out_self (perform_request ua net self_ req h))
     = Some (resp_reason (response net)) /\
   exists l,
     respheader (out_self (perform_request ua net self_ req h)) = Some l /\
     out_heap (perform_request ua net self_ req h) !! l
       = Some (lowercased (resp_headers (response net)))).
Proof.
  destruct (perform_request_leaves ua net self_ req h)
    as [(-> & -> & e & -> & Hkind)|(-> & ->)].
  - left. repeat split. exists e. split; [reflexivity|].
    intros st msg rh b ->. destruct Hkind as [[m [=]]|[m [=]]].
  - right. repeat split. eexists. split; [reflexivity|]. apply lookup_insert_eq.
Qed.

(** X6: a dispatch leaves every list object that was in the store
    untouched; the header list it normalises in place is a new object. *)
Theorem perform_request_keeps_other_lists ua net self_ req h (l' : loc) :
  is_Some (h !! l') ->
  out_heap (perform_request ua net self_ req h) !! l' = h !! l'.
Proof.
  intros Hin.
  destruct (perform_request_leaves ua net self_ req h) as [(_ & -> & _)|(_ & ->)];
    [reflexivity|].
  apply lookup_insert_ne. intros <-.
  apply (is_fresh (dom h)). now apply elem_of_dom.
Qed.

Lemma perform_request_keeps_other_lists_witness :
  out_heap (perform_request Sample.user_agent (Sample.serving Sample.ok_response)
              Sample.posix_client Sample.get_blob {[ 0 := [("Date", "today")] ]}) !! 0
  = ({[ 0 := [("Date", "today")] ]} : store) !! 0.
Proof.
  apply (perform_request_keeps_other_lists Sample.user_agent
           (Sample.serving Sample.ok_response) Sample.posix_client Sample.get_blob
           {[ 0 := [("Date", "today")] ]} 0).
  exists [("Date", "today")]. vm_compute. reflexivity.
Defined.

(** ** Names that are lower-case already *)

Lemma lower_ascii_fixes c : PyStr.is_upper c = false -> PyStr.lower_ascii c = c.
Proof. unfold PyStr.lower_ascii. now intros ->. Qed.

Lemma lower_fixes s : PyStr.no_upper s = true -> PyStr.lower s = s.
Proof.
  induction s as [|c s IH]; simpl; [reflexivity|].
  intros [Hc Hs]%andb_prop. apply negb_true_iff in Hc.
  now rewrite (lower_ascii_fixes _ Hc), (IH Hs).
Qed.

Lemma lowercased_fixes hs :
  Forall (fun nv : string * string => PyStr.no_upper nv.1 = true) hs ->
  lowercased hs = hs.
Proof.
  induction 1 as [|[n v] hs Hn _ IH]; [reflexivity|].
  unfold lowercased in *. simpl in *. now rewrite (lower_fixes _ Hn), IH.
Qed.

Lemma lowercased_idempotent hs : lowercased (lowercased hs) = lowercased hs.
Proof. apply lowercased_fixes, lowercased_no_upper. Qed.

(** X7: when no header name of the raw response holds an upper-case
    letter, the normalisation changes nothing: the header list of a
    returned response, and the one carried by an HTTPError, is the raw
    header list exactly. *)
Theorem lowercase_headers_pass_unchanged ua net self_ req h :
  Forall (fun nv : string * string => PyStr.no_upper nv.1 = true)
         (resp_headers (response net)) ->
  (forall resp,
     out_result (perform_request ua net self_ req h) = Return resp ->
     out_heap (perform_request ua net self_ req h) !! r_headers resp
       = Some (resp_headers (response net))) /\
  (forall st msg l b,
     out_result (perform_request ua net self_ req h)
       = Raise (HTTPError st msg (Some l) b) ->
     out_heap (perform_request ua net self_ req h) !! l
       = Some (resp_headers (response net))).
Proof.
  intros Hlow.
  destruct (perform_request_outcome ua net self_ req h)
    as [(e & He & Hkind)|(Hheap & _ & _ & _ & c' & body' & _ & _ & Hres)].
  - split; [intros resp Hr; congruence|].
    intros st msg l b Hr. rewrite Hr in He. injection He as <-.
    destruct Hkind as [[m [=]]|[m [=]]].
  - rewrite Hheap, Hres. rewrite (lowercased_fixes _ Hlow).
    destruct (300 <=? _)%Z; split; try discriminate.
    + intros st msg l b [= <- <- <- <-]. apply lookup_insert_eq.
    + intros resp [= <-]. apply lookup_insert_eq.
Qed.

Lemma lowercase_headers_pass_unchanged_witness :
  out_heap (perform_request Sample.user_agent
              (Sample.serving
                 {| resp_status := 200; resp_reason := "OK";
                    resp_headers := [("etag", "0x1")]; resp_length := None;
                    resp_data := [] |})
              Sample.posix_client Sample.get_blob ∅) !! 0
  = Some [("etag", "0x1")].
Proof.
  assert (Hlow : Forall (fun nv : string * string => PyStr.no_upper nv.1 = true)
                   [("etag", "0x1")]) by (repeat constructor).
  destruct (lowercase_headers_pass_unchanged Sample.user_agent
              (Sample.serving
                 {| resp_status := 200; resp_reason := "OK";
                    resp_headers := [("etag", "0x1")]; resp_length := None;
                    resp_data := [] |})
              Sample.posix_client Sample.get_blob ∅ Hlow) as [Hret _].
  apply (Hret {| r_status := 200; r_message := "OK"; r_headers := 0;
                 r_body := Some [] |}).
  vm_compute. reflexivity.
Defined.

(** ** Acquisition: failures, the direct path, the connection class *)

Section AcquireMore.

Context (net : transport).


End AcquireMore.

(** X8: with a proxy host configured but no proxy port, every dispatch
    raises TypeError before any call is made on a connection, and leaves
    client and store as they were.  On the standard path no connection
    object exists by then; on the alternate path the object was constructed
    and is dropped without a call, [close] included. *)
Theorem dispatch_without_proxy_port_raises ua net self_ req h :
  truthy (proxy_host self_) = true ->
  proxy_port self_ = None ->
  (exists msg, out_result (perform_request ua net self_ req h) = Raise (TypeError msg)) /\
  out_self (perform_request ua net self_ req h) = self_ /\
  out_heap (perform_request ua net self_ req h) = h /\
  (use_httplib self_ = true -> out_conn (perform_request ua net self_ req h) = None) /\
  (use_httplib self_ = false ->
     exists c, out_conn (perform_request ua net self_ req h) = Some c /\
               conn_class_of c = WinHTTPConnection /\ calls c = []).
Proof.
  intros Hp Hport. unfold perform_request, get_connection, py_int.
  rewrite Hp, Hport.
  destruct (use_httplib self_); simpl; repeat split; eauto; try discriminate.
Qed.

Lemma dispatch_without_proxy_port_raises_witness :
  out_conn (perform_request Sample.user_agent (Sample.serving Sample.ok_response)
              (Sample.proxied Sample.posix_client None None None) Sample.get_blob ∅)
  = None.
Proof.
  apply (dispatch_without_proxy_port_raises Sample.user_agent
           (Sample.serving Sample.ok_response)
           (Sample.proxied Sample.posix_client None None None) Sample.get_blob ∅);
    reflexivity.
Defined.




(** X11: the class of the acquired connection.  On the standard path it is
    HTTPConnection exactly when the effective protocol is the string
    "http", and that connection is never given the certificate file; for
    every other protocol it is HTTPSConnection with the client's
    certificate file.  Without httplib it is the alternate connection, with
    the certificate file and the effective protocol. *)
Theorem get_connection_class net self_ req c :
  get_connection net self_ req = Connected c ->
  (use_httplib self_ = true -> effective_protocol self_ req = "http" ->
     conn_class_of c = HTTPConnection /\ conn_cert_file c = None) /\
  (use_httplib self_ = true -> effective_protocol self_ req <> "http" ->
     conn_class_of c = HTTPSConnection /\ conn_cert_file c = cert_file self_) /\
  (use_httplib self_ = false ->
     conn_class_of c = WinHTTPConnection /\ conn_cert_file c = cert_file self_ /\
     conn_protocol c = Some (effective_protocol self_ req)).
Proof.
  unfold get_connection, call_on, py_int.
  destruct (use_httplib self_); simpl;
    destruct (String.eqb_spec (effective_protocol self_ req) "http");
    repeat case_match; simplify_eq; intros [= <-]; simpl;
    repeat split; intros; simplify_eq; auto; try congruence.
Qed.

Lemma get_connection_class_witness :
  exists c,
    get_connection (Sample.serving Sample.ok_response) Sample.posix_client
      {| host := "example"; method := "GET"; path := "/"; headers := []; body := None;
         protocol_override := Some "http" |} = Connected c /\
    conn_class_of c = HTTPConnection /\ conn_cert_file c = None.
Proof.
  eexists. split; [reflexivity|].
  apply (get_connection_class (Sample.serving Sample.ok_response) Sample.posix_client
           {| host := "example"; method := "GET"; path := "/"; headers := [];
              body := None; protocol_override := Some "http" |} _ eq_refl);
    reflexivity.
Defined.

(** ** What is returned and what is raised, on any transport *)

(** X12: whatever the transport does, a response is only ever returned
    with a status below 300, an HTTPError only ever raised with a status of
    300 or more, and both carry the status code and the reason phrase of
    the raw response. *)
Theorem outcome_agrees_with_status ua net self_ req h :
  (forall resp,
     out_result (perform_request ua net self_ req h) = Return resp ->
     r_status resp = resp_status (response net) /\
     r_message resp = resp_reason (response net) /\
     (resp_status (response net) < 300)%Z) /\
  (forall st msg rh b,
     out_result (perform_request ua net self_ req h) = Raise (HTTPError st msg rh b) ->
     st = Some (resp_status (response net)) /\
     msg = Some (resp_reason (response net)) /\
     (300 <= resp_status (response net))%Z).
Proof.
  destruct (perform_request_outcome ua net self_ req h)
    as [(e & He & Hkind)|(_ & _ & _ & _ & c' & body' & _ & _ & Hres)].
  - split; [intros resp Hr; congruence|].
    intros st msg rh b Hr. rewrite Hr in He. injection He as <-.
    destruct Hkind as [[m [=]]|[m [=]]].
  - rewrite Hres. destruct (300 <=? _)%Z eqn:Hst; split; try discriminate.
    + intros st msg rh b [= <- <- <- <-]. apply Z.leb_le in Hst. now repeat split.
    + intros resp [= <-]. apply Z.leb_gt in Hst. now repeat split.
Qed.

(** X13: an exception raised by [close] replaces the outcome of the
    dispatch, be it a response that was read in full, an HTTPError or an
    exception of an earlier call. *)
Theorem close_failure_replaces_outcome ua net self_ req h c msg :
  get_connection net self_ req = Connected c ->
  (forall tr, fault net (tr ++ [close_ev]) = Some msg) ->
  out_result (perform_request ua net self_ req h) = Raise (TransportError msg).
Proof.
  intros Hc Hclose.
  destruct (perform_request_connected ua net _ _ h _ Hc)
    as (r & s & _ & _ & _ & _ & ->).
  now rewrite Hclose.
Qed.

Lemma close_failure_replaces_outcome_witness :
  out_result (perform_request Sample.user_agent
                (Sample.failing_on_close Sample.ok_response)
                Sample.posix_client Sample.get_blob ∅)
  = Raise (TransportError "close failed").
Proof.
  apply (close_failure_replaces_outcome Sample.user_agent
           (Sample.failing_on_close Sample.ok_response)
           Sample.posix_client Sample.get_blob ∅ _ "close failed" eq_refl).
  intros tr. simpl. now rewrite last_snoc.
Defined.

(** ** The value of the Proxy-Authorization header *)







(** ** The shape of a dispatch, on any transport *)



(** ** A client fresh from its constructor *)

